(** * ui_automator: the screen-definition pipeline of
    [android_auto_script_generator.py]

    A shallow embedding of the element catalog builder
    ([get_screen_elements]), the screen identifier resolver
    ([normalize_to_snake_case], [generate_screen_name]), the action recorder
    ([build_actions_for_screen]) and the code emitter
    ([_build_selector_string], [generate_python_function]), together with the
    properties the specification states about them. *)

From Stdlib Require Import List NArith ZArith String Ascii Bool Lia.
From stdpp Require Import base gmap sets list.
Import ListNotations.

(** ** Python strings

    A Python [str] is a sequence of Unicode code points; it is modelled as a
    list of code points ([N]). [py] turns a Rocq string literal into such a
    list, so that the literals of the source can be written as they are. *)

Abbreviation pystr := (list N).

Definition py (s : string) : pystr :=
  List.map N_of_ascii (list_ascii_of_string s).

(** Truth value of a string: [if s:] holds for the non-empty ones. *)
Definition truthy (s : pystr) : bool :=
  match s with [] => false | _ :: _ => true end.

Definition str_eqb (a b : pystr) : bool := bool_decide (a = b).

(** [x in xs] for a list of strings. *)
Definition str_in (x : pystr) (xs : list pystr) : bool :=
  bool_decide (x ∈ xs).

(** ** Outcomes

    A call either returns a value or raises; [Raised] stands for an exception
    that leaves the function. *)

Inductive Outcome (A : Type) : Type :=
| Returned (a : A)
| Raised.
Arguments Returned {A} a.
Arguments Raised {A}.

#[global] Instance Outcome_ret : MRet Outcome := fun A a => Returned a.

#[global] Instance Outcome_bind : MBind Outcome := fun A B k c =>
  match c with
  | Returned a => k a
  | Raised => Raised
  end.

(** ** The transport (uiautomator2) as the builder sees it *)

Record Rect := { left : Z; top : Z; right : Z; bottom : Z }.

(** The attribute map [elem.info] of one UI node. Every attribute of the
    transport's map is present; [bounds] may be the empty map, which is
    [None] here. *)
Module Info.
Record t := {
  text : pystr;
  resourceId : pystr;
  className : pystr;
  contentDescription : pystr;
  bounds : option Rect;
  clickable : bool;
  longClickable : bool;
  scrollable : bool;
  checkable : bool;
  checked : bool;
  editable : bool
}.
End Info.

(** What one evaluation of the property [elem.info] gives: it raises, it is
    [None], it is the empty map, or it is an attribute map. *)
Inductive InfoRead :=
| ReadRaises
| ReadNone
| ReadEmpty
| ReadInfo (i : Info.t).

(** A raw element handle. [info] is a property that asks the device on
    every evaluation: [info elem k] is the result of the [k]-th evaluation
    (counted from 0) on this handle. *)
Record UiObject := { info : nat -> InfoRead }.

(** The queries [device(clickable=True)], ..., [device(className=c)]. *)
Inductive Query :=
| ByClickable
| ByLongClickable
| ByScrollable
| ByCheckable
| ByEditable
| ByClassName (class_name : pystr).

(** A device answers a query with the list of handles it iterates to, or
    raises; [app_current] gives the foreground activity name (the value of
    [current_app.get('activity', '')]) or raises. *)
Record Device := {
  query : Query -> Outcome (list UiObject);
  app_current : Outcome pystr
}.

(** ** Catalog entries *)

(** A selector is a Python dict built by insertion; it is kept as the list
    of its items in insertion order, which is the order [dict.items()]
    iterates in. *)
Abbreviation Selector := (list (pystr * pystr)).

Module Element.
Record t := {
  text : pystr;
  resource_id : pystr;
  class_name : pystr;
  description : pystr;
  bounds : option Rect;
  clickable : bool;
  long_clickable : bool;
  scrollable : bool;
  checkable : bool;
  checked : bool;
  editable : bool;
  selector : Selector
}.
End Element.

(** [tuple(bounds.values())] *)
Definition bounds_tuple (b : option Rect) : list Z :=
  match b with
  | None => []
  | Some r => [left r; top r; right r; bottom r]
  end.

Abbreviation Signature := (pystr * pystr * pystr * list Z * pystr)%type.

(** ** Element Catalog Builder: [get_screen_elements] *)

Definition EDITABLE_CLASS_NAMES : list pystr :=
  [ py "android.widget.EditText";
    py "android.widget.AutoCompleteTextView";
    py "android.webkit.WebView" ].

(** The signature tuple of lines 75-82. *)
Definition signature (i : Info.t) : Signature :=
  (Info.resourceId i, Info.text i, Info.className i,
   bounds_tuple (Info.bounds i), Info.contentDescription i).

(** Lines 89-91. *)
Definition is_editable (i : Info.t) : bool :=
  if Info.editable i then true
  else str_in (Info.className i) EDITABLE_CLASS_NAMES.

(** The condition of lines 95-96 (without its negation). *)
Definition interactable (i : Info.t) : bool :=
  Info.clickable i || Info.longClickable i || Info.scrollable i
  || Info.checkable i || is_editable i.

(** Lines 116-132: the selector dict, key by key. *)
Definition construct_selector (res_id text desc class_name : pystr) : Selector :=
  if truthy res_id then [(py "resourceId", res_id)]
  else if truthy text then
    (py "text", text) ::
    (if truthy class_name then [(py "className", class_name)] else [])
  else if truthy desc then
    (py "description", desc) ::
    (if truthy class_name then [(py "className", class_name)] else [])
  else if truthy class_name then [(py "className", class_name)]
  else [].

(** Lines 100-132: [element_data] with its selector filled in. *)
Definition element_data (i : Info.t) : Element.t :=
  {| Element.text := Info.text i;
     Element.resource_id := Info.resourceId i;
     Element.class_name := Info.className i;
     Element.description := Info.contentDescription i;
     Element.bounds := Info.bounds i;
     Element.clickable := Info.clickable i;
     Element.long_clickable := Info.longClickable i;
     Element.scrollable := Info.scrollable i;
     Element.checkable := Info.checkable i;
     Element.checked := Info.checked i;
     Element.editable := is_editable i;
     Element.selector :=
       construct_selector (Info.resourceId i) (Info.text i)
                          (Info.contentDescription i) (Info.className i) |}.

(** Lines 60-61: one class-name query per entry of the allow-list. *)
Fixpoint query_classes (device : Device) (names : list pystr)
  : Outcome (list UiObject) :=
  match names with
  | [] => Returned []
  | class_name :: rest =>
      x ← query device (ByClassName class_name);
      xs ← query_classes device rest;
      Returned (x ++ xs)
  end.

(** Lines 53-65: the queries, in order; the first one that raises ends the
    gathering. *)
Definition gather (device : Device) : Outcome (list UiObject) :=
  a ← query device ByClickable;
  b ← query device ByLongClickable;
  c ← query device ByScrollable;
  d ← query device ByCheckable;
  e ← query device ByEditable;
  f ← query_classes device EDITABLE_CLASS_NAMES;
  Returned (a ++ b ++ c ++ d ++ e ++ f).

(** The state the [for] loop of line 67 carries: [interactable_elements] and
    [processed_elements_signatures]. *)
Abbreviation BuildState := (list Element.t * gset Signature)%type.

(** The [except] clause of lines 137-140. Its [print] evaluates
    [elem.info] again: once for the condition of the conditional expression
    and, when that is a non-empty map, once more for [.get]. An exception
    raised there is raised inside the handler and leaves the function. *)
Definition handler (elem : UiObject) (st : BuildState) : Outcome BuildState :=
  match info elem 1 with
  | ReadRaises => Raised
  | ReadNone | ReadEmpty => Returned st
  | ReadInfo _ =>
      match info elem 2 with
      | ReadRaises => Raised
      | ReadNone => Raised
      | ReadEmpty | ReadInfo _ => Returned st
      end
  end.

(** One iteration of the loop, lines 68-140. *)
Definition loop_body (elem : UiObject) (st : BuildState) : Outcome BuildState :=
  let '(interactable_elements, processed_elements_signatures) := st in
  match info elem 0 with
  | ReadRaises => handler elem st
  | ReadNone | ReadEmpty => Returned st
  | ReadInfo i =>
      if bool_decide (signature i ∈ processed_elements_signatures) then
        Returned st
      else
        let processed := {[ signature i ]} ∪ processed_elements_signatures in
        if negb (interactable i) then
          Returned (interactable_elements, processed)
        else
          Returned (interactable_elements ++ [element_data i], processed)
  end.

Fixpoint for_each (elements_to_check : list UiObject) (st : BuildState)
  : Outcome BuildState :=
  match elements_to_check with
  | [] => Returned st
  | elem :: rest => st' ← loop_body elem st; for_each rest st'
  end.

Definition get_screen_elements (device : Device) : Outcome (list Element.t) :=
  match gather device with
  | Raised => Returned []
  | Returned elements_to_check =>
      st ← for_each elements_to_check ([], ∅);
      Returned (fst st)
  end.

(** ** Python string operations used by the resolver and the recorder *)

(** Whitespace as [\s] of [re] (on [str] patterns) and [str.strip()] see
    it: the code points for which [str.isspace] holds. *)
Definition is_space (c : N) : bool :=
  ((9 <=? c) && (c <=? 13) || (28 <=? c) && (c <=? 32)
   || (c =? 0x85) || (c =? 0xA0) || (c =? 0x1680)
   || (0x2000 <=? c) && (c <=? 0x200A)
   || (c =? 0x2028) || (c =? 0x2029) || (c =? 0x202F)
   || (c =? 0x205F) || (c =? 0x3000))%N.

(** [str.lower()] of one code point. It is exact below U+0100 and on the two
    code points above whose lowercase form holds an ASCII letter (U+0130,
    Latin capital I with dot above, and U+212A, the Kelvin sign). The other
    code points are left as they are: their lowercase form has no ASCII code
    point and no whitespace, and this program either removes every
    non-ASCII code point after lowering ([normalize_to_snake_case]) or
    compares the lowered string with ASCII literals only. *)
Definition lower_char (c : N) : pystr :=
  (if (0x41 <=? c) && (c <=? 0x5A) then [c + 32]
   else if (0xC0 <=? c) && (c <=? 0xDE) && negb (c =? 0xD7) then [c + 32]
   else if c =? 0x130 then [0x69; 0x307]
   else if c =? 0x212A then [0x6B]
   else [c])%N.

Definition py_lower (s : pystr) : pystr := flat_map lower_char s.

(** [s.count(c)] for a one-character [c]. *)
Definition py_count (c : N) (s : pystr) : nat :=
  List.length (List.filter (N.eqb c) s).

(** [s.split(sep)] for a one-character separator: never empty. *)
Fixpoint py_split (sep : N) (s : pystr) : list pystr :=
  match s with
  | [] => [[]]
  | c :: rest =>
      if (c =? sep)%N then [] :: py_split sep rest
      else match py_split sep rest with
           | [] => [[c]]
           | part :: parts => (c :: part) :: parts
           end
  end.

(** [xs[-1]] of a non-empty list of strings. *)
Definition last_item (xs : list pystr) : pystr := List.last xs [].

Fixpoint lstrip (p : N -> bool) (s : pystr) : pystr :=
  match s with
  | [] => []
  | c :: rest => if p c then lstrip p rest else s
  end.

Definition rstrip (p : N -> bool) (s : pystr) : pystr :=
  List.rev (lstrip p (List.rev s)).

(** [s.strip(chars)] and [s.strip()]. *)
Definition py_strip_chars (chars : pystr) (s : pystr) : pystr :=
  let p := fun c => List.existsb (N.eqb c) chars in
  rstrip p (lstrip p s).

Definition py_strip (s : pystr) : pystr := rstrip is_space (lstrip is_space s).

(** [c.isdigit()]; the program asks it only of a code point that passed the
    filter [[a-z0-9_]], where it is the ASCII test. *)
Definition py_isdigit (c : N) : bool := ((0x30 <=? c) && (c <=? 0x39))%N.

(** [sub in s] *)
Fixpoint starts_with (sub s : pystr) : bool :=
  match sub, s with
  | [], _ => true
  | _ :: _, [] => false
  | a :: sub', b :: s' => (a =? b)%N && starts_with sub' s'
  end.

Fixpoint contains (sub s : pystr) : bool :=
  starts_with sub s ||
  match s with
  | [] => false
  | _ :: rest => contains sub rest
  end.

(** The regular expressions of the program are a character class, alone or
    under [+]. *)
Inductive Pattern :=
| One (class : N -> bool)
| Plus (class : N -> bool).

(** [re.sub(X+, repl, s)]: every maximal run of [class] becomes one
    [repl]; [in_run] tells that the previous code point was in the run. *)
Fixpoint sub_runs (class : N -> bool) (repl : pystr) (in_run : bool)
  (s : pystr) : pystr :=
  match s with
  | [] => []
  | c :: rest =>
      if class c then
        if in_run then sub_runs class repl true rest
        else repl ++ sub_runs class repl true rest
      else c :: sub_runs class repl false rest
  end.

Definition re_sub (pattern : Pattern) (repl : pystr) (s : pystr) : pystr :=
  match pattern with
  | One class => flat_map (fun c => if class c then repl else [c]) s
  | Plus class => sub_runs class repl false s
  end.

(** [\s], [[^a-z0-9_]] and [_]. *)
Definition underscore : N := 0x5F.
Definition dot : N := 0x2E.

Definition ident_char (c : N) : bool :=
  ((0x61 <=? c) && (c <=? 0x7A) || (0x30 <=? c) && (c <=? 0x39)
   || (c =? underscore))%N.

Definition not_ident_char (c : N) : bool := negb (ident_char c).

Definition is_underscore (c : N) : bool := (c =? underscore)%N.

(** ** Screen Identifier Resolver *)

(** [normalize_to_snake_case], lines 144-160. *)
Definition normalize_to_snake_case (text : pystr) : pystr :=
  if negb (truthy text) then py "unnamed_screen"
  else
    let text :=
      if List.existsb (N.eqb dot) text && (1 <? py_count dot text)%nat
      then last_item (py_split dot text)
      else text in
    let text := py_lower text in
    let text := re_sub (Plus is_space) (py "_") text in
    let text := re_sub (One not_ident_char) (py "") text in
    let text := re_sub (Plus is_underscore) (py "_") text in
    let text := py_strip_chars (py "_") text in
    if negb (truthy text) then py "unnamed_screen"
    else if py_isdigit (List.hd 0%N text) then py "screen_" ++ text
    else text.

(** [float('inf')] next to the integer coordinates. *)
Inductive Coord :=
| Fin (z : Z)
| Inf.

Definition coord_ltb (a b : Coord) : bool :=
  match a, b with
  | Fin x, Fin y => (x <? y)%Z
  | Fin _, Inf => true
  | Inf, _ => false
  end.

Definition coord_eqb (a b : Coord) : bool :=
  match a, b with
  | Fin x, Fin y => (x =? y)%Z
  | Inf, Inf => true
  | _, _ => false
  end.

(** The sort key of line 180 and the order of Python tuples. *)
Definition sort_key (el : Element.t) : Coord * Coord :=
  match Element.bounds el with
  | None => (Inf, Inf)
  | Some r => (Fin (top r), Fin (left r))
  end.

Definition key_ltb (a b : Coord * Coord) : bool :=
  coord_ltb (fst a) (fst b)
  || coord_eqb (fst a) (fst b) && coord_ltb (snd a) (snd b).

(** [list.sort(key=...)] is stable: an element goes behind the ones whose
    key is not greater. *)
Fixpoint insert_by_key (el : Element.t) (sorted : list Element.t)
  : list Element.t :=
  match sorted with
  | [] => [el]
  | y :: rest =>
      if key_ltb (sort_key el) (sort_key y) then el :: sorted
      else y :: insert_by_key el rest
  end.

Definition sort_by_key (l : list Element.t) : list Element.t :=
  List.fold_left (fun sorted el => insert_by_key el sorted) l [].

(** Lines 183-188: the loop over [text_views] with its [break];
    [potential_name] is the value the variable holds so far. *)
Fixpoint title_heuristic (text_views : list Element.t)
  (potential_name : pystr) : pystr :=
  match text_views with
  | [] => potential_name
  | tv :: rest =>
      let res_id := py_lower (Element.resource_id tv) in
      if contains (py "title") res_id
         || contains (py "action_bar_title") res_id
         || contains (py "toolbar_title") res_id
      then
        let potential_name := Element.text tv in
        if truthy potential_name then potential_name
        else title_heuristic rest potential_name
      else title_heuristic rest potential_name
  end.

(** Lines 192-195. *)
Fixpoint topmost_heuristic (text_views : list Element.t)
  (potential_name : pystr) : pystr :=
  match text_views with
  | [] => potential_name
  | tv :: rest =>
      if truthy (Element.text tv) then Element.text tv
      else topmost_heuristic rest potential_name
  end.

(** [generate_screen_name], lines 162-213. *)
Definition generate_screen_name (device : Device) (elements : list Element.t)
  : pystr :=
  let potential_name := py "" in
  let text_views :=
    List.filter
      (fun el => str_eqb (Element.class_name el) (py "android.widget.TextView")
                 && truthy (Element.text el))
      elements in
  let text_views := sort_by_key text_views in
  let potential_name := title_heuristic text_views potential_name in
  let potential_name :=
    if negb (truthy potential_name)
    then topmost_heuristic text_views potential_name
    else potential_name in
  let potential_name :=
    if negb (truthy potential_name) then
      match app_current device with
      | Returned activity_name =>
          if truthy activity_name then activity_name else potential_name
      | Raised => py ""
      end
    else potential_name in
  let potential_name :=
    if negb (truthy potential_name) then py "Unnamed Screen"
    else potential_name in
  normalize_to_snake_case potential_name.

(** ** Builtins that depend on the Unicode database

    [str.isprintable] decides which code points [repr] escapes, and [int]
    accepts the decimal digits of every script. Neither is fixed by this
    program, so both are taken as they come: [isprintable] is asked of
    code points from U+0080 on only, and [py_int s] is [Some z] when
    [int(s)] returns [z] and [None] when it raises [ValueError]. *)
Class Builtins := {
  isprintable : N -> bool;
  py_int : pystr -> option Z
}.

(** ** Code Emitter *)

Definition backslash : N := 0x5C.
Definition squote : N := 0x27.
Definition dquote : N := 0x22.

(** Lower-case hexadecimal digits, most significant first. *)
Definition hex_digit (d : N) : N :=
  (if d <? 10 then 0x30 + d else 0x61 + (d - 10))%N.

Fixpoint hex_digits (n : nat) (v : N) : pystr :=
  match n with
  | O => []
  | S k => hex_digits k (v / 16)%N ++ [hex_digit (v mod 16)%N]
  end.

(** A recorded action: the dict of lines 632-695, by its [action_type]. *)
Inductive Action :=
| click (element_selector : Selector) (description : pystr)
| set_text (element_selector : Selector) (text : pystr)
           (description : pystr)
| scroll (element_selector : Selector) (direction : pystr)
         (description : pystr)
| swipe (direction : pystr) (description : pystr)
| scroll_to_text (scroll_element_selector : Selector) (target_text : pystr)
                 (direction : pystr) (description : pystr).

Section Emitter.
Context `{Builtins}.

(** [repr] of a string, one code point at a time, inside [quote]. *)
Definition repr_char (quote c : N) : pystr :=
  (if (c =? quote) || (c =? backslash) then [backslash; c]
   else if c =? 0x09 then py "\t"
   else if c =? 0x0A then py "\n"
   else if c =? 0x0D then py "\r"
   else if (c <? 0x20) || (c =? 0x7F) then py "\x" ++ hex_digits 2 c
   else if c <? 0x7F then [c]
   else if isprintable c then [c]
   else if c <=? 0xFF then py "\x" ++ hex_digits 2 c
   else if c <=? 0xFFFF then py "\u" ++ hex_digits 4 c
   else py "\U" ++ hex_digits 8 c)%N.

(** [repr(s)]: double quotes when [s] has a single quote and no double
    quote, single quotes otherwise. *)
Definition py_repr (s : pystr) : pystr :=
  let quote :=
    if List.existsb (N.eqb squote) s && negb (List.existsb (N.eqb dquote) s)
    then dquote else squote in
  quote :: flat_map (repr_char quote) s ++ [quote].

(** [sep.join(parts)] *)
Fixpoint py_join (sep : pystr) (parts : list pystr) : pystr :=
  match parts with
  | [] => []
  | [p] => p
  | p :: rest => p ++ sep ++ py_join sep rest
  end.

(** [selector_dict[key]] when [key in selector_dict]. *)
Fixpoint dict_get (key : pystr) (d : Selector) : option pystr :=
  match d with
  | [] => None
  | (k, v) :: rest => if str_eqb k key then Some v else dict_get key rest
  end.

Definition preferred_keys : list pystr :=
  [py "resourceId"; py "text"; py "description"; py "className"].

(** [_build_selector_string], lines 447-471. *)
Definition _build_selector_string (selector_dict : Selector) : pystr :=
  if match selector_dict with [] => true | _ => false end then py ""
  else
    let '(parts, processed_keys) :=
      List.fold_left
        (fun (acc : list pystr * gset pystr) key =>
           let '(parts, processed_keys) := acc in
           match dict_get key selector_dict with
           | Some value =>
               if truthy value
               then (parts ++ [key ++ py "=" ++ py_repr value],
                     {[ key ]} ∪ processed_keys)
               else acc
           | None => acc
           end)
        preferred_keys ([], ∅) in
    let parts :=
      List.fold_left
        (fun (parts : list pystr) (item : pystr * pystr) =>
           let '(key, value) := item in
           if negb (bool_decide (key ∈ processed_keys)) && truthy value
           then parts ++ [key ++ py "=" ++ py_repr value]
           else parts)
        selector_dict parts in
    py_join (py ", ") parts.

(** Lines 486-522: the statement for one action. *)
Definition code_line (action : Action) : pystr :=
  let code_line := py "    " in
  match action with
  | click element_selector _ =>
      let selector_str := _build_selector_string element_selector in
      code_line ++ py "d(" ++ selector_str ++ py ").click()"
  | set_text element_selector text _ =>
      let selector_str := _build_selector_string element_selector in
      code_line ++ py "d(" ++ selector_str ++ py ").set_text("
                ++ py_repr text ++ py ")"
  | scroll element_selector direction _ =>
      let selector_str := _build_selector_string element_selector in
      let fling_method :=
        if str_eqb direction (py "up") then py "up"
        else if str_eqb direction (py "down") then py "down"
        else if str_eqb direction (py "left") then py "left"
        else if str_eqb direction (py "right") then py "right"
        else py "forward" in
      code_line ++ py "d(" ++ selector_str ++ py ").fling."
                ++ fling_method ++ py "()"
  | swipe direction _ =>
      code_line ++ py "d.swipe_ext(" ++ [dquote] ++ direction
                ++ [dquote] ++ py ")"
  | scroll_to_text scroll_element_selector target_text _ _ =>
      let scroll_selector_str :=
        _build_selector_string scroll_element_selector in
      code_line ++ py "d(" ++ scroll_selector_str ++ py ").scroll.to(text="
                ++ py_repr target_text ++ py ")"
  end.

(** Lines 524-526, for one action. *)
Definition action_lines (action : Action) : list pystr :=
  let code_line := code_line action in
  if truthy (py_strip code_line)
  then [code_line; py "    time.sleep(0.5) # Stability delay"]
  else [].

(** [generate_python_function], lines 474-532. *)
Definition generate_python_function (screen_name : pystr)
  (recorded_actions : list Action) : pystr :=
  let function_code_lines :=
    [ py "def " ++ screen_name ++ py "(d):";
      py "    " ++ [dquote; dquote; dquote] ++ py "Automates actions on the "
        ++ screen_name ++ py " screen." ++ [dquote; dquote; dquote];
      py "    print(f'Executing actions for " ++ screen_name
        ++ py " screen...')" ] in
  let function_code_lines :=
    match recorded_actions with
    | [] => function_code_lines ++ [py "    pass"]
    | _ :: _ =>
        let function_code_lines :=
          function_code_lines ++ flat_map action_lines recorded_actions in
        if (List.length function_code_lines <=? 3)%nat
        then function_code_lines ++ [py "    pass"]
        else function_code_lines
    end in
  py_join [0x0A%N] function_code_lines.

End Emitter.

(** ** Reading a string literal back

    The lexer of Python source for a short string literal without prefix:
    the opening quote, the body with its escape sequences, the closing
    quote. [lex_string_literal src] is the string the literal at the head
    of [src] denotes and the source text behind it. [None] is a lexical
    error, or a form that is left out here: triple-quoted literals, octal
    escapes, named escapes and line continuation. *)

Inductive LexState :=
| Plain
| Escape
| Hex (remaining : nat) (value : N).

Definition hex_value (c : N) : option N :=
  (if (0x30 <=? c) && (c <=? 0x39) then Some (c - 0x30)
   else if (0x61 <=? c) && (c <=? 0x66) then Some (c - 0x61 + 10)
   else if (0x41 <=? c) && (c <=? 0x46) then Some (c - 0x41 + 10)
   else None)%N.

(** The code point of a one-letter escape. *)
Definition simple_escape (c : N) : option N :=
  (if c =? backslash then Some backslash
   else if c =? squote then Some squote
   else if c =? dquote then Some dquote
   else if c =? 0x61 then Some 0x07
   else if c =? 0x62 then Some 0x08
   else if c =? 0x66 then Some 0x0C
   else if c =? 0x6E then Some 0x0A
   else if c =? 0x72 then Some 0x0D
   else if c =? 0x74 then Some 0x09
   else if c =? 0x76 then Some 0x0B
   else None)%N.

Fixpoint lex_body (quote : N) (st : LexState) (value : pystr) (src : pystr)
  : option (pystr * pystr) :=
  match src with
  | [] => None
  | c :: rest =>
      match st with
      | Plain =>
          if (c =? quote)%N then Some (value, rest)
          else if (c =? backslash)%N then lex_body quote Escape value rest
          else if ((c =? 0x0A) || (c =? 0x0D))%N then None
          else lex_body quote Plain (value ++ [c]) rest
      | Escape =>
          match simple_escape c with
          | Some e => lex_body quote Plain (value ++ [e]) rest
          | None =>
              if (c =? 0x78)%N then lex_body quote (Hex 2 0) value rest
              else if (c =? 0x75)%N then lex_body quote (Hex 4 0) value rest
              else if (c =? 0x55)%N then lex_body quote (Hex 8 0) value rest
              else if ((0x30 <=? c) && (c <=? 0x37) || (c =? 0x4E)
                       || (c =? 0x0A) || (c =? 0x0D))%N then None
              else lex_body quote Plain (value ++ [backslash; c]) rest
          end
      | Hex remaining v =>
          match hex_value c with
          | None => None
          | Some d =>
              let v := (16 * v + d)%N in
              match remaining with
              | O => None
              | S O =>
                  if (v <=? 0x10FFFF)%N
                  then lex_body quote Plain (value ++ [v]) rest
                  else None
              | S k => lex_body quote (Hex k v) value rest
              end
          end
      end
  end.

Definition lex_string_literal (src : pystr) : option (pystr * pystr) :=
  match src with
  | q :: rest =>
      if ((q =? squote) || (q =? dquote))%N then
        if starts_with [q; q] rest then None
        else lex_body q Plain [] rest
      else None
  | [] => None
  end.

(** The strings a Python [str] can hold: code points up to U+10FFFF. *)
Definition valid_str (s : pystr) : bool :=
  List.forallb (fun c => (c <=? 0x10FFFF)%N) s.

(** ** Action Recorder

    The operator's console is the list of lines that [input()] will return,
    in order; [input()] at the end of the list raises [EOFError], which
    nothing in the recorder catches. What the recorder prints is left
    out. *)

Inductive Flow :=
| Break
| Continue (recorded_actions : list Action).

Section Recorder.
Context `{Builtins}.

(** [_get_user_choice], lines 535-544. *)
Fixpoint _get_user_choice (min_val max_val : Z) (inputs : list pystr)
  : Outcome (Z * list pystr) :=
  match inputs with
  | [] => Raised
  | line :: inputs =>
      match py_int (py_strip line) with
      | Some choice =>
          if ((min_val <=? choice) && (choice <=? max_val))%Z
          then Returned (choice, inputs)
          else _get_user_choice min_val max_val inputs
      | None => _get_user_choice min_val max_val inputs
      end
  end.

(** The loop of [_get_element_from_list], lines 550-558. *)
Fixpoint choose_element (elements : list Element.t) (inputs : list pystr)
  : Outcome (option Element.t * list pystr) :=
  match inputs with
  | [] => Raised
  | line :: inputs =>
      match py_int (py_strip line) with
      | Some choice =>
          if ((1 <=? choice) && (choice <=? Z.of_nat (List.length elements)))%Z
          then Returned (List.nth_error elements (Z.to_nat (choice - 1)),
                         inputs)
          else choose_element elements inputs
      | None => choose_element elements inputs
      end
  end.

(** [_get_element_from_list], lines 546-558. *)
Definition _get_element_from_list (elements : list Element.t)
  (inputs : list pystr) : Outcome (option Element.t * list pystr) :=
  match elements with
  | [] => Returned (None, inputs)
  | _ :: _ => choose_element elements inputs
  end.

(** [_get_element_description], lines 560-576, with the default
    [default_name="element"] of its only call. *)
Definition _get_element_description (element_data : option Element.t)
  : pystr :=
  match element_data with
  | None => py "element"
  | Some element_data =>
      let name := Element.text element_data in
      if truthy name then
        py "'" ++ name ++ py "' (" ++ Element.class_name element_data
               ++ py ")"
      else
        let res_id := Element.resource_id element_data in
        if truthy res_id then
          py "ID:'" ++ res_id ++ py "' ("
                    ++ Element.class_name element_data ++ py ")"
        else
          let desc := Element.description element_data in
          if truthy desc then
            py "Desc:'" ++ desc ++ py "' ("
                        ++ Element.class_name element_data ++ py ")"
          else Element.class_name element_data
  end.

(** [input(...)]: the next line. *)
Definition input (inputs : list pystr) : Outcome (pystr * list pystr) :=
  match inputs with
  | [] => Raised
  | line :: inputs => Returned (line, inputs)
  end.

Definition scroll_direction_options : list pystr :=
  [ py "forward"; py "backward"; py "vertical_forward";
    py "vertical_backward"; py "horizontal_forward";
    py "horizontal_backward" ].

(** One pass through the body of [while True], lines 587-699: it ends in
    [break] or at the top of the loop again, with the action list it
    leaves. *)
Definition iteration (elements : list Element.t)
  (recorded_actions : list Action) (inputs : list pystr)
  : Outcome (Flow * list pystr) :=
  '(action_choice, inputs) ← _get_user_choice 1 5 inputs;
  if (action_choice =? 5)%Z then Returned (Break, inputs)
  else
    '(element_data, inputs) ←
      (if bool_decide (action_choice ∈ [1; 2; 3; 4]%Z)
       then _get_element_from_list elements inputs
       else Returned (None, inputs));
    match element_data with
    | None => Returned (Continue recorded_actions, inputs)
    | Some el =>
        let el_desc := _get_element_description element_data in
        if (action_choice =? 1)%Z then
          let action :=
            click (Element.selector el) (py "Click on " ++ el_desc) in
          Returned (Continue (recorded_actions ++ [action]), inputs)
        else if (action_choice =? 2)%Z then
          if negb (Element.editable el)
          then Returned (Continue recorded_actions, inputs)
          else
            '(line, inputs) ← input inputs;
            let user_text := py_strip line in
            let action :=
              set_text (Element.selector el) user_text
                (py "Enter text '" ++ user_text ++ py "' into " ++ el_desc) in
            Returned (Continue (recorded_actions ++ [action]), inputs)
        else if (action_choice =? 3)%Z then
          '(line, inputs) ← input inputs;
          let direction := py_lower (py_strip line) in
          let direction :=
            if negb (str_in direction
                       [py "up"; py "down"; py "left"; py "right"])
            then py "down" else direction in
          let action :=
            if Element.scrollable el then
              scroll (Element.selector el) direction
                (py "Scroll " ++ el_desc ++ py " " ++ direction)
            else
              swipe direction (py "Swipe screen " ++ direction) in
          Returned (Continue (recorded_actions ++ [action]), inputs)
        else if (action_choice =? 4)%Z then
          if negb (Element.scrollable el)
          then Returned (Continue recorded_actions, inputs)
          else
            '(line, inputs) ← input inputs;
            let target_text := py_strip line in
            if negb (truthy target_text)
            then Returned (Continue recorded_actions, inputs)
            else
              '(line, inputs) ← input inputs;
              let direction := py_lower (py_strip line) in
              let direction :=
                if negb (str_in direction scroll_direction_options)
                then py "forward" else direction in
              let action :=
                scroll_to_text (Element.selector el) target_text direction
                  (py "Scroll " ++ el_desc ++ py " " ++ direction
                     ++ py " until element with text '" ++ target_text
                     ++ py "' is visible") in
              Returned (Continue (recorded_actions ++ [action]), inputs)
        else Returned (Continue recorded_actions, inputs)
    end.

(** [while True]: every pass that comes back to the top has read a line,
    so [fuel] passes are enough when [fuel] exceeds the number of lines;
    [None] says that [fuel] ran out. *)
Fixpoint while_true (fuel : nat) (elements : list Element.t)
  (recorded_actions : list Action) (inputs : list pystr)
  : option (Outcome (list Action * list pystr)) :=
  match fuel with
  | O => None
  | S fuel =>
      match iteration elements recorded_actions inputs with
      | Raised => Some Raised
      | Returned (Break, inputs) => Some (Returned (recorded_actions, inputs))
      | Returned (Continue recorded_actions, inputs) =>
          while_true fuel elements recorded_actions inputs
      end
  end.

(** [build_actions_for_screen], lines 579-701: the action list it returns
    and the lines it has not read. The default of the last [match] is
    never taken ([while_true_fuel]). *)
Definition build_actions_for_screen (elements : list Element.t)
  (inputs : list pystr) : Outcome (list Action * list pystr) :=
  let recorded_actions := [] in
  match elements with
  | [] => Returned (recorded_actions, inputs)
  | _ :: _ =>
      match while_true (S (List.length inputs)) elements recorded_actions
              inputs with
      | Some r => r
      | None => Raised
      end
  end.

End Recorder.

(** ** The normalization function of the emitted helper block

    [generate_screen_recognition_helpers_string] returns source text; the
    function below is the [normalize_to_snake_case] which that text defines
    (the value of [normalize_code_for_helper], lines 388-403), statement by
    statement. The text is written in a literal that is not raw, where
    [\s] is no escape sequence and stays as it is, so the emitted pattern
    of line 395 is [\s+]. *)
Module Helper.

Definition normalize_to_snake_case (text : pystr) : pystr :=
  if negb (truthy text) then py "unnamed_screen"
  else
    let text :=
      if List.existsb (N.eqb dot) text && (1 <? py_count dot text)%nat
      then last_item (py_split dot text)
      else text in
    let text := py_lower text in
    let text := re_sub (Plus is_space) (py "_") text in
    let text := re_sub (One not_ident_char) (py "") text in
    let text := re_sub (Plus is_underscore) (py "_") text in
    let text := py_strip_chars (py "_") text in
    if negb (truthy text) then py "unnamed_screen"
    else if py_isdigit (List.hd 0%N text) then py "screen_" ++ text
    else text.

End Helper.

(** ** Notions the properties are stated with *)

(** The signature of a catalog entry. *)
Definition entry_signature (e : Element.t) : Signature :=
  (Element.resource_id e, Element.text e, Element.class_name e,
   bounds_tuple (Element.bounds e), Element.description e).

(** The attribute map the loop gets from a handle, if it gets one. *)
Definition first_info (elem : UiObject) : option Info.t :=
  match info elem 0 with
  | ReadInfo i => Some i
  | _ => None
  end.

(** The attribute maps of the raw results, in discovery order. *)
Definition inspected (raws : list UiObject) : list Info.t :=
  omap first_info raws.

(** How many entries of a catalog carry a signature. *)
Definition occurrences (sg : Signature) (catalog : list Element.t) : nat :=
  List.length
    (List.filter (fun e => bool_decide (entry_signature e = sg)) catalog).

(** The [className] item a selector gets next to [text] or
    [description]. *)
Definition class_item (e : Element.t) : Selector :=
  if truthy (Element.class_name e)
  then [(py "className", Element.class_name e)] else [].

(** A source identifier as the specification asks for it. *)
Definition valid_identifier (s : pystr) : bool :=
  truthy s && List.forallb ident_char s && negb (py_isdigit (List.hd 0%N s)).

(** A console that knows ASCII only: every code point from U+0080 on is
    escaped by [repr], and [int] reads an unsigned run of ASCII digits. *)
Fixpoint decimal (acc : Z) (s : pystr) : option Z :=
  match s with
  | [] => Some acc
  | c :: rest =>
      if py_isdigit c then decimal (10 * acc + Z.of_N (c - 0x30)) rest
      else None
  end.

Definition ascii_builtins : Builtins :=
  {| isprintable := fun _ => false;
     py_int := fun s => match s with [] => None | _ => decimal 0 s end |}.

(** ** The loop of the builder, without its failures *)

(** What one iteration does to the state when it gets an attribute map. *)
Definition process_info (i : Info.t) (st : BuildState) : BuildState :=
  if bool_decide (signature i ∈ st.2) then st
  else (if interactable i then st.1 ++ [element_data i] else st.1,
        {[ signature i ]} ∪ st.2).

(** The first occurrences of the signatures that are not in [seen]. *)
Fixpoint fresh (seen : gset Signature) (infos : list Info.t) : list Info.t :=
  match infos with
  | [] => []
  | i :: rest =>
      if bool_decide (signature i ∈ seen) then fresh seen rest
      else i :: fresh ({[ signature i ]} ∪ seen) rest
  end.

(** ** Sample devices *)

(** A button with a resource id, a text and a description. *)
Definition next_button : Info.t :=
  {| Info.text := py "Next";
     Info.resourceId := py "btn_next";
     Info.className := py "android.widget.Button";
     Info.contentDescription := py "Go on";
     Info.bounds := Some {| left := 0; top := 900; right := 200; bottom := 960 |};
     Info.clickable := true;
     Info.longClickable := true;
     Info.scrollable := false;
     Info.checkable := false;
     Info.checked := false;
     Info.editable := false |}.

(** A view whose attribute map shows no capability at all. *)
Definition inert_view : Info.t :=
  {| Info.text := py "Banner";
     Info.resourceId := py "";
     Info.className := py "android.view.View";
     Info.contentDescription := py "";
     Info.bounds := Some {| left := 0; top := 0; right := 200; bottom := 40 |};
     Info.clickable := false;
     Info.longClickable := false;
     Info.scrollable := false;
     Info.checkable := false;
     Info.checked := false;
     Info.editable := false |}.

(** A handle whose [info] gives the same map on every evaluation, and one
    whose [info] raises on every evaluation (the node has left the
    screen). *)
Definition handle (i : Info.t) : UiObject := {| info := fun _ => ReadInfo i |}.

Definition stale_handle : UiObject := {| info := fun _ => ReadRaises |}.

(** A device that answers the [clickable] and the [longClickable] query
    with the given handles and every other query with none. *)
Definition device_with (clickables long_clickables : list UiObject) : Device :=
  {| query := fun q =>
       match q with
       | ByClickable => Returned clickables
       | ByLongClickable => Returned long_clickables
       | _ => Returned []
       end;
     app_current := Returned (py "com.example.app.MainActivity") |}.

(** C1 as the specification words it: whenever two raw results carry the
    same signature, the catalog has exactly one entry with it. *)
Definition exactly_one_entry_per_duplicate : Prop :=
  forall device raws cat (a b : nat) ia ib,
    gather device = Returned raws ->
    get_screen_elements device = Returned cat ->
    (a < b)%nat ->
    inspected raws !! a = Some ia ->
    inspected raws !! b = Some ib ->
    signature ia = signature ib ->
    occurrences (signature ia) cat = 1%nat.

(** ** Normal forms of the normalization *)

(** The value of [text] when line 156 is reached: the input after lines
    148-155. *)
Definition stripped (text : pystr) : pystr :=
  let text :=
    if List.existsb (N.eqb dot) text && (1 <? py_count dot text)%nat
    then last_item (py_split dot text)
    else text in
  let text := py_lower text in
  let text := re_sub (Plus is_space) (py "_") text in
  let text := re_sub (One not_ident_char) (py "") text in
  let text := re_sub (Plus is_underscore) (py "_") text in
  py_strip_chars (py "_") text.

(** No two underscores in a row. *)
Fixpoint single_underscores (s : pystr) : bool :=
  match s with
  | [] => true
  | a :: rest =>
      negb (is_underscore a && is_underscore (List.hd 0%N rest))
      && single_underscores rest
  end.

(** Snake case: identifier characters, underscores one at a time and
    neither first nor last. *)
Definition snake_case (s : pystr) : bool :=
  List.forallb ident_char s && single_underscores s
  && negb (is_underscore (List.hd 0%N s))
  && negb (is_underscore (List.last s 0%N)).

(** ** What the recorder leaves in its list *)

(** The description the recorder writes for a scroll-to-text action. *)
Definition scroll_to_text_description (el_desc direction target_text : pystr)
  : pystr :=
  py "Scroll " ++ el_desc ++ py " " ++ direction
    ++ py " until element with text '" ++ target_text ++ py "' is visible".

Section Recorded.
Context `{Builtins}.

(** An action as [build_actions_for_screen] records it for a catalog: the
    element it was recorded against and the checks that element and the
    operator's input have passed. *)
Definition recorded_for (elements : list Element.t) (a : Action) : Prop :=
  exists el, el ∈ elements /\
    let el_desc := _get_element_description (Some el) in
    match a with
    | click element_selector description =>
        element_selector = Element.selector el
        /\ description = py "Click on " ++ el_desc
    | set_text element_selector text description =>
        Element.editable el = true
        /\ element_selector = Element.selector el
        /\ description = py "Enter text '" ++ text ++ py "' into " ++ el_desc
    | scroll element_selector direction description =>
        Element.scrollable el = true
        /\ element_selector = Element.selector el
        /\ direction ∈ [py "up"; py "down"; py "left"; py "right"]
        /\ description = py "Scroll " ++ el_desc ++ py " " ++ direction
    | swipe direction description =>
        Element.scrollable el = false
        /\ direction ∈ [py "up"; py "down"; py "left"; py "right"]
        /\ description = py "Swipe screen " ++ direction
    | scroll_to_text scroll_element_selector target_text direction
        description =>
        Element.scrollable el = true
        /\ scroll_element_selector = Element.selector el
        /\ target_text <> []
        /\ direction ∈ scroll_direction_options
        /\ description
           = scroll_to_text_description el_desc direction target_text
    end.

(** The recorder at the top of its loop ([Browsing]) with an action list
    and the lines still to come, and where some passes through the loop
    take it. *)
Inductive browsing (elements : list Element.t)
  : list Action -> list pystr -> list Action -> list pystr -> Prop :=
| browsing_here recorded_actions inputs :
    browsing elements recorded_actions inputs recorded_actions inputs
| browsing_pass recorded_actions inputs recorded_actions' inputs'
    recorded_actions'' inputs'' :
    iteration elements recorded_actions inputs
    = Returned (Continue recorded_actions', inputs') ->
    browsing elements recorded_actions' inputs' recorded_actions'' inputs'' ->
    browsing elements recorded_actions inputs recorded_actions'' inputs''.

(** A line the menu reads and turns down. *)
Definition turned_down (min_val max_val : Z) (line : pystr) : Prop :=
  match py_int (py_strip line) with
  | Some choice => ~ (min_val <= choice <= max_val)%Z
  | None => True
  end.

End Recorded.

(** C9 as the specification words it: the recorder returns only behind a
    line that the action menu reads as choice 5. *)
Definition done_only_by_finish : Prop :=
  forall (B : Builtins) elements inputs recorded_actions rest,
    build_actions_for_screen elements inputs
    = Returned (recorded_actions, rest) ->
    exists before line,
      inputs = before ++ line :: rest /\ py_int (py_strip line) = Some 5%Z.

(** C6 as the specification words it: the emitted statement passes the
    recorded direction on, so two actions that differ in their direction
    are emitted differently. *)
Definition direction_in_emitted_call : Prop :=
  forall (B : Builtins) scroll_element_selector target_text
         direction direction' description description',
    code_line (scroll_to_text scroll_element_selector target_text
                 direction description)
    = code_line (scroll_to_text scroll_element_selector target_text
                   direction' description') ->
    direction = direction'.

(** A text field and a list, for the recorder. *)
Definition name_field : Info.t :=
  {| Info.text := py "";
     Info.resourceId := py "name_field";
     Info.className := py "android.widget.EditText";
     Info.contentDescription := py "";
     Info.bounds := Some {| left := 0; top := 100; right := 200; bottom := 160 |};
     Info.clickable := true;
     Info.longClickable := false;
     Info.scrollable := false;
     Info.checkable := false;
     Info.checked := false;
     Info.editable := false |}.

Definition settings_list : Info.t :=
  {| Info.text := py "";
     Info.resourceId := py "";
     Info.className := py "android.widget.ListView";
     Info.contentDescription := py "Settings";
     Info.bounds := Some {| left := 0; top := 200; right := 200; bottom := 900 |};
     Info.clickable := false;
     Info.longClickable := false;
     Info.scrollable := true;
     Info.checkable := false;
     Info.checked := false;
     Info.editable := false |}.

(** The catalog of a screen with the button, the text field and the
    list. *)
Definition sample_catalog : list Element.t :=
  [element_data next_button; element_data name_field;
   element_data settings_list].

(** ** Sample session *)

(** A text with both kinds of quote: [it's "x"]. *)
Definition quoted_text : pystr := py "it's " ++ [dquote] ++ py "x" ++ [dquote].

(** The lines of an operator who asks to type into the button (turned
    down: the button is not editable), clicks it, scrolls the list until
    [Wi-Fi] shows, and finishes; one more line is left for the prompt that
    follows the recorder. *)
Definition sample_lines : list pystr :=
  [py "2"; py "1"; py "1"; py "1"; py "4"; py "3"; py " Wi-Fi ";
   py "Backward"; py "5"; py "no"].

Definition sample_actions : list Action :=
  [click [(py "resourceId", py "btn_next")]
     (py "Click on 'Next' (android.widget.Button)");
   scroll_to_text
     [(py "description", py "Settings");
      (py "className", py "android.widget.ListView")]
     (py "Wi-Fi") (py "backward")
     (py "Scroll Desc:'Settings' (android.widget.ListView) backward until element with text 'Wi-Fi' is visible")].

(** ** Proof steps *)

(** Comparisons of code points, case by case. *)
Ltac chars :=
  repeat match goal with
    | H : context [(?a <=? ?b)%N] |- _ => destruct (N.leb_spec a b); simpl in H
    | H : context [(?a <? ?b)%N] |- _ => destruct (N.ltb_spec a b); simpl in H
    | H : context [(?a =? ?b)%N] |- _ => destruct (N.eqb_spec a b); simpl in H
    | |- context [(?a <=? ?b)%N] => destruct (N.leb_spec a b); simpl
    | |- context [(?a <? ?b)%N] => destruct (N.ltb_spec a b); simpl
    | |- context [(?a =? ?b)%N] => destruct (N.eqb_spec a b); simpl
    end;
  try congruence; try lia.

(** ** When the builder raises *)

(** The failure of a handle that leaves [get_screen_elements]: the first
    evaluation of [info] raises (line 69), and in the handler the [print] of
    line 139 raises again: either its condition does, or its condition sees
    a non-empty map and the evaluation for [.get] raises or gives [None]. *)
Definition inspection_escapes (elem : UiObject) : bool :=
  match info elem 0, info elem 1, info elem 2 with
  | ReadRaises, ReadRaises, _ => true
  | ReadRaises, ReadInfo _, (ReadRaises | ReadNone) => true
  | _, _, _ => false
  end.

(** ** What the selector string is made of *)

Section SelectorItems.
Context `{Builtins}.

(** One keyword argument of the emitted selector (lines 463 and 469). *)
Definition keyword_argument (item : pystr * pystr) : pystr :=
  item.1 ++ py "=" ++ py_repr item.2.

(** The items of a selector dict under the preferred keys, in the order of
    [preferred_keys], and the other items, in the order of the dict; an
    item whose value is empty is in neither. *)
Definition preferred_item (selector_dict : Selector) (key : pystr)
  : option (pystr * pystr) :=
  match dict_get key selector_dict with
  | Some value => if truthy value then Some (key, value) else None
  | None => None
  end.

Definition preferred_items (selector_dict : Selector) : Selector :=
  omap (preferred_item selector_dict) preferred_keys.

Definition other_items (selector_dict : Selector) : Selector :=
  List.filter
    (fun item => negb (str_in item.1 preferred_keys) && truthy item.2)
    selector_dict.

End SelectorItems.

(** ** Lines of the emitted text *)

(** ['\n' not in s] *)
Definition single_line (s : pystr) : bool :=
  negb (List.existsb (N.eqb 0x0A) s).

(** The three lines every emitted function opens with (lines 477-479) and
    the line that follows the statement of an action (line 526). *)
Definition header_lines (screen_name : pystr) : list pystr :=
  [ py "def " ++ screen_name ++ py "(d):";
    py "    " ++ [dquote; dquote; dquote] ++ py "Automates actions on the "
      ++ screen_name ++ py " screen." ++ [dquote; dquote; dquote];
    py "    print(f'Executing actions for " ++ screen_name
      ++ py " screen...')" ].

Definition delay_line : pystr := py "    time.sleep(0.5) # Stability delay".

(** A session that scrolls the list up and asks to scroll the button
    sideways. *)
Definition scroll_lines : list pystr :=
  [py "3"; py "3"; py " UP "; py "3"; py "1"; py "sideways"; py "5"].

(** ** Where the screen name comes from *)

(** The text labels of a catalog (line 176), the test of line 185 reduced
    to its first disjunct, and [a <= b] on sort keys. *)
Definition text_views (elements : list Element.t) : list Element.t :=
  List.filter
    (fun el => str_eqb (Element.class_name el) (py "android.widget.TextView")
               && truthy (Element.text el))
    elements.

Definition title_like (tv : Element.t) : bool :=
  contains (py "title") (py_lower (Element.resource_id tv)).

Definition key_leb (a b : Coord * Coord) : bool := negb (key_ltb b a).

(** A list in the order of its sort keys: no element has a key greater than
    the key of an element behind it. *)
Fixpoint sorted_by_key (l : list Element.t) : Prop :=
  match l with
  | [] => True
  | x :: rest =>
      Forall (fun y => key_leb (sort_key x) (sort_key y) = true) rest
      /\ sorted_by_key rest
  end.

(** A screen with a greeting above its toolbar title. *)
Definition greeting : Info.t :=
  {| Info.text := py "Welcome back";
     Info.resourceId := py "";
     Info.className := py "android.widget.TextView";
     Info.contentDescription := py "";
     Info.bounds := Some {| left := 0; top := 10; right := 200; bottom := 40 |};
     Info.clickable := true;
     Info.longClickable := false;
     Info.scrollable := false;
     Info.checkable := false;
     Info.checked := false;
     Info.editable := false |}.

Definition toolbar_title : Info.t :=
  {| Info.text := py "Wi-Fi Settings";
     Info.resourceId := py "com.example:id/Toolbar_Title";
     Info.className := py "android.widget.TextView";
     Info.contentDescription := py "";
     Info.bounds := Some {| left := 0; top := 50; right := 200; bottom := 90 |};
     Info.clickable := true;
     Info.longClickable := false;
     Info.scrollable := false;
     Info.checkable := false;
     Info.checked := false;
     Info.editable := false |}.

(** Comparisons of sort keys, case by case. *)
Ltac key_order :=
  unfold key_leb, key_ltb, coord_ltb, coord_eqb in *; simpl in *;
  repeat match goal with
    | c : Coord |- _ => destruct c
    end;
  repeat match goal with
    | H : context [(?a <? ?b)%Z] |- _ => destruct (Z.ltb_spec a b); simpl in H
    | H : context [(?a =? ?b)%Z] |- _ => destruct (Z.eqb_spec a b); simpl in H
    | |- context [(?a <? ?b)%Z] => destruct (Z.ltb_spec a b); simpl
    | |- context [(?a =? ?b)%Z] => destruct (Z.eqb_spec a b); simpl
    end;
  try congruence; try lia.

(** A device whose [app_current] raises. *)
Definition silent_device : Device :=
  {| query := fun _ => Returned []; app_current := Raised |}.

Definition labelled_screen : list Element.t :=
  [element_data greeting; element_data toolbar_title].

(** A handle whose first evaluation of [info] raises and whose later ones
    give the map. *)
Definition flaky_handle (i : Info.t) : UiObject :=
  {| info := fun n => match n with O => ReadRaises | S _ => ReadInfo i end |}.

(** ** The identifier function of the emitted helper block

    The end of [get_current_screen_identifier] in the text of
    [get_identifier_code_for_helper] (lines 437-440): what the function
    returns for the value its three heuristics have left in
    [potential_name]. *)
Definition helper_screen_identifier (potential_name : pystr) : pystr :=
  let normalized_name :=
    Helper.normalize_to_snake_case
      (if truthy potential_name then potential_name
       else py "Unnamed Screen") in
  if str_eqb normalized_name (py "unnamed_screen")
     || negb (truthy normalized_name)
  then py "unknown_screen"
  else normalized_name.

(** * Properties *)

(** ** The catalog builder *)


Lemma entry_signature_element_data i :
  entry_signature (element_data i) = signature i.
Proof. reflexivity. Qed.

Lemma loop_body_returned elem st st' :
  loop_body elem st = Returned st' ->
  st' = match first_info elem with Some i => process_info i st | None => st end.
Proof.
  destruct st as [acc seen]. unfold loop_body, first_info, handler, process_info.
  destruct (info elem 0) as [| | |i]; simpl.
  - destruct (info elem 1); try congruence.
    destruct (info elem 2); congruence.
  - congruence.
  - congruence.
  - destruct (bool_decide (signature i ∈ seen)); [congruence|].
    destruct (interactable i); simpl; congruence.
Qed.

Lemma for_each_returned raws st st' :
  for_each raws st = Returned st' ->
  st' = List.fold_left (fun st i => process_info i st) (inspected raws) st.
Proof.
  revert st. induction raws as [|elem raws IH]; intros st Hrun; simpl in *.
  - congruence.
  - destruct (loop_body elem st) as [st1|] eqn:Hbody; simpl in Hrun;
      [|discriminate].
    apply loop_body_returned in Hbody. apply IH in Hrun. subst st1 st'.
    unfold inspected. simpl. destruct (first_info elem); reflexivity.
Qed.

Lemma fold_process_info infos acc seen :
  (List.fold_left (fun st i => process_info i st) infos (acc, seen)).1
  = acc ++ (element_data <$> List.filter interactable (fresh seen infos)).
Proof.
  revert acc seen. induction infos as [|i infos IH]; intros acc seen; simpl.
  - by rewrite app_nil_r.
  - unfold process_info at 2. simpl. destruct (bool_decide (signature i ∈ seen)).
    + apply IH.
    + rewrite IH. simpl. destruct (interactable i); simpl.
      * by rewrite <- app_assoc.
      * reflexivity.
Qed.

Lemma get_screen_elements_returned device raws cat :
  gather device = Returned raws ->
  get_screen_elements device = Returned cat ->
  cat = element_data <$> List.filter interactable (fresh ∅ (inspected raws)).
Proof.
  unfold get_screen_elements. intros ->.
  destruct (for_each raws ([], ∅)) as [st|] eqn:Hrun; simpl; [|discriminate].
  intros [= <-]. apply for_each_returned in Hrun. subst st.
  by rewrite fold_process_info.
Qed.

Lemma fresh_sublist seen infos : sublist (fresh seen infos) infos.
Proof.
  revert seen. induction infos as [|i infos IH]; intros seen; simpl.
  - constructor.
  - destruct (bool_decide (signature i ∈ seen)).
    + by apply sublist_cons.
    + by apply sublist_skip.
Qed.

Lemma fresh_not_seen seen infos i :
  i ∈ fresh seen infos -> signature i ∉ seen.
Proof.
  revert seen. induction infos as [|j infos IH]; intros seen; simpl.
  - by intros ?%elem_of_nil.
  - destruct (bool_decide (signature j ∈ seen)) eqn:Hj.
    + apply IH.
    + apply bool_decide_eq_false in Hj.
      intros [->|Hin]%elem_of_cons; [done|].
      apply IH in Hin. intros Hseen. apply Hin. by apply elem_of_union_r.
Qed.

Lemma fresh_NoDup seen infos :
  NoDup (signature <$> fresh seen infos).
Proof.
  revert seen. induction infos as [|i infos IH]; intros seen; simpl.
  - constructor.
  - destruct (bool_decide (signature i ∈ seen)); [apply IH|].
    simpl. constructor; [|apply IH].
    intros (j & Hsig & Hj)%list_elem_of_fmap.
    apply fresh_not_seen in Hj. apply Hj.
    apply elem_of_union_l, elem_of_singleton. congruence.
Qed.

Lemma fresh_first seen before i after :
  signature i ∉ seen ->
  signature i ∉ (signature <$> before) ->
  i ∈ fresh seen (before ++ i :: after).
Proof.
  revert seen. induction before as [|j before IH]; intros seen Hseen Hbefore;
    simpl.
  - rewrite bool_decide_eq_false_2 by done. by left.
  - simpl in Hbefore. apply not_elem_of_cons in Hbefore as [Hne Hbefore].
    destruct (bool_decide (signature j ∈ seen)).
    + by apply IH.
    + right. apply IH; [|done].
      intros [Heq%elem_of_singleton|Hin]%elem_of_union; [congruence|done].
Qed.

Lemma NoDup_map_eq {A B} (f : A -> B) (l : list A) x y :
  NoDup (f <$> l) -> x ∈ l -> y ∈ l -> f x = f y -> x = y.
Proof.
  induction l as [|a l IH]; simpl; intros Hnd Hx Hy Hf.
  - by apply elem_of_nil in Hx.
  - apply NoDup_cons in Hnd as [Ha Hnd].
    apply elem_of_cons in Hx as [->|Hx]; apply elem_of_cons in Hy as [->|Hy];
      try done.
    + exfalso. apply Ha. rewrite Hf. by apply (list_elem_of_fmap_2 f).
    + exfalso. apply Ha. rewrite <- Hf. by apply (list_elem_of_fmap_2 f).
    + by apply IH.
Qed.

Lemma occurrences_NoDup sg (infos : list Info.t) :
  NoDup (signature <$> infos) ->
  occurrences sg (element_data <$> infos)
  = if bool_decide (sg ∈ (signature <$> infos)) then 1 else 0.
Proof.
  unfold occurrences.
  induction infos as [|i infos IH]; intros Hnd.
  - rewrite bool_decide_eq_false_2; [done|]. apply not_elem_of_nil.
  - rewrite !fmap_cons in *. apply NoDup_cons in Hnd as [Hi Hnd].
    cbn [List.filter]. rewrite entry_signature_element_data.
    specialize (IH Hnd).
    destruct (decide (signature i = sg)) as [<-|Hne].
    + rewrite bool_decide_eq_true_2 by done. cbn [List.length]. rewrite IH.
      rewrite (bool_decide_eq_false_2 _ Hi).
      rewrite bool_decide_eq_true_2; [done|by left].
    + rewrite (bool_decide_eq_false_2 _ Hne). rewrite IH.
      destruct (decide (sg ∈ signature <$> infos)) as [Hin|Hnin].
      * rewrite !bool_decide_eq_true_2; [done|by right|done].
      * rewrite !bool_decide_eq_false_2; [done| |done].
        intros [?|?]%elem_of_cons; auto.
Qed.

Lemma filter_sublist {A} (f : A -> bool) (l : list A) :
  sublist (List.filter f l) l.
Proof.
  induction l as [|a l IH]; simpl; [constructor|].
  destruct (f a); by constructor.
Qed.

Lemma elem_of_filter {A} (f : A -> bool) (l : list A) x :
  x ∈ List.filter f l <-> x ∈ l /\ f x = true.
Proof. rewrite !list_elem_of_In. apply List.filter_In. Qed.

Lemma catalog_signatures (infos : list Info.t) :
  entry_signature <$> (element_data <$> infos) = signature <$> infos.
Proof. rewrite <- list_fmap_compose. reflexivity. Qed.

(** A first occurrence splits the first occurrences around it: the ones
    before it come from the results before it, the ones behind it from the
    results behind it. *)
Lemma fresh_split seen before i after :
  signature i ∉ seen ->
  signature i ∉ (signature <$> before) ->
  exists firsts_before firsts_after,
    fresh seen (before ++ i :: after) = firsts_before ++ i :: firsts_after
    /\ sublist firsts_before before /\ sublist firsts_after after.
Proof.
  revert seen. induction before as [|j before IH]; intros seen Hseen Hbefore;
    simpl.
  - rewrite bool_decide_eq_false_2 by done.
    exists [], (fresh ({[ signature i ]} ∪ seen) after).
    split; [done|]. split; [done|apply fresh_sublist].
  - simpl in Hbefore. apply not_elem_of_cons in Hbefore as [Hne Hbefore].
    destruct (bool_decide (signature j ∈ seen)).
    + destruct (IH seen Hseen Hbefore) as (fb & fa & -> & Hfb & Hfa).
      exists fb, fa. split; [done|]. split; [by apply sublist_cons|done].
    + destruct (IH ({[ signature j ]} ∪ seen)) as (fb & fa & -> & Hfb & Hfa);
        [|done|].
      { intros [Heq%elem_of_singleton|Hin]%elem_of_union; [congruence|done]. }
      exists (j :: fb), fa. split; [done|].
      split; [by apply sublist_skip|done].
Qed.

Lemma filter_app_cons {A} (f : A -> bool) l x r :
  f x = true ->
  List.filter f (l ++ x :: r) = List.filter f l ++ x :: List.filter f r.
Proof. intros Hx. rewrite List.filter_app. simpl. by rewrite Hx. Qed.

(** C1 (as the code has it). A catalog that [get_screen_elements] returns
    is exactly the list of the entries built from the first occurrences of
    the signatures that pass the interactability test of lines 95-97, in
    discovery order. So it holds every signature at most once; a signature
    whose first raw result passes the test has exactly one entry, the one
    built from that first result and kept at its place: the entries before
    it come from the raw results before it, the entries behind it from the
    raw results behind it, and a later duplicate leaves none. A signature
    whose first raw result fails the test has no entry. *)
Theorem catalog_one_entry_per_signature device raws cat :
  gather device = Returned raws ->
  get_screen_elements device = Returned cat ->
  cat = element_data <$> List.filter interactable (fresh ∅ (inspected raws))
  /\ NoDup (entry_signature <$> cat)
  /\ sublist cat (element_data <$> inspected raws)
  /\ forall before i after,
       inspected raws = before ++ i :: after ->
       signature i ∉ (signature <$> before) ->
       occurrences (signature i) cat = (if interactable i then 1 else 0)
       /\ (interactable i = true ->
           element_data i ∈ cat
           /\ exists cat_before cat_after,
                cat = cat_before ++ element_data i :: cat_after
                /\ sublist cat_before (element_data <$> before)
                /\ sublist cat_after (element_data <$> after)).
Proof.
  intros Hgather Hrun.
  pose proof (get_screen_elements_returned _ _ _ Hgather Hrun) as Hcat.
  split; [exact Hcat|]. rewrite Hcat. clear Hcat.
  set (firsts := fresh ∅ (inspected raws)).
  assert (Hnd : NoDup (signature <$> List.filter interactable firsts)).
  { apply (sublist_NoDup _ (signature <$> firsts)).
    - apply fresh_NoDup.
    - apply fmap_sublist, filter_sublist. }
  split; [by rewrite catalog_signatures|]. split.
  { apply fmap_sublist. etrans; [apply filter_sublist|].
    apply fresh_sublist. }
  intros before i after Hsplit Hfirst.
  assert (Hi : i ∈ firsts).
  { unfold firsts. rewrite Hsplit. apply fresh_first; [apply not_elem_of_empty|done]. }
  rewrite occurrences_NoDup by done.
  destruct (interactable i) eqn:Hint.
  - assert (Hin : i ∈ List.filter interactable firsts).
    { by apply elem_of_filter. }
    split.
    + rewrite bool_decide_eq_true_2; [done|].
      by apply (list_elem_of_fmap_2 signature).
    + intros _. split; [by apply (list_elem_of_fmap_2 element_data)|].
      destruct (fresh_split ∅ before i after) as (fb & fa & Hfresh & Hfb & Hfa);
        [apply not_elem_of_empty|done|].
      exists (element_data <$> List.filter interactable fb),
        (element_data <$> List.filter interactable fa).
      split.
      * unfold firsts. rewrite Hsplit, Hfresh, filter_app_cons by done.
        by rewrite fmap_app.
      * split; apply fmap_sublist; (etrans; [apply filter_sublist|done]).
  - split; [|done]. rewrite bool_decide_eq_false_2; [done|].
    intros (j & Hsig & Hj)%list_elem_of_fmap.
    apply elem_of_filter in Hj as [Hj Hjint].
    assert (j = i) as ->.
    { eapply (NoDup_map_eq signature); [apply (fresh_NoDup ∅ (inspected raws))|..];
        done. }
    congruence.
Qed.

(** The button is found by the [clickable] query, before the text field,
    and again by the [longClickable] query: its entry stays in front. *)
Lemma catalog_one_entry_per_signature_witness :
  let device :=
    device_with [handle next_button; handle name_field] [handle next_button] in
  let raws := [handle next_button; handle name_field; handle next_button] in
  let cat := [element_data next_button; element_data name_field] in
  gather device = Returned raws
  /\ get_screen_elements device = Returned cat
  /\ cat = element_data <$> List.filter interactable (fresh ∅ (inspected raws))
  /\ NoDup (entry_signature <$> cat)
  /\ sublist cat (element_data <$> inspected raws)
  /\ forall before i after,
       inspected raws = before ++ i :: after ->
       signature i ∉ (signature <$> before) ->
       occurrences (signature i) cat = (if interactable i then 1 else 0)
       /\ (interactable i = true ->
           element_data i ∈ cat
           /\ exists cat_before cat_after,
                cat = cat_before ++ element_data i :: cat_after
                /\ sublist cat_before (element_data <$> before)
                /\ sublist cat_after (element_data <$> after)).
Proof.
  intros device raws cat.
  assert (Hgather : gather device = Returned raws) by reflexivity.
  assert (Hrun : get_screen_elements device = Returned cat)
    by (vm_compute; reflexivity).
  split; [exact Hgather|]. split; [exact Hrun|].
  exact (catalog_one_entry_per_signature device raws cat Hgather Hrun).
Defined.

(** C1, counterexample to the wording of the specification: the device
    answers the [clickable] query with two handles of one view whose
    attribute map shows no capability. Both raw results carry one signature,
    and the catalog has no entry for it. *)
Lemma exactly_one_entry_fails :
  let device := device_with [handle inert_view; handle inert_view] [] in
  gather device = Returned [handle inert_view; handle inert_view]
  /\ get_screen_elements device = Returned []
  /\ occurrences (signature inert_view) [] = 0%nat
  /\ ~ exactly_one_entry_per_duplicate.
Proof.
  split; [reflexivity|]. split; [reflexivity|]. split; [reflexivity|].
  intros Hclaim.
  specialize (Hclaim (device_with [handle inert_view; handle inert_view] [])
                [handle inert_view; handle inert_view] []
                0%nat 1%nat inert_view inert_view).
  assert (Hzero : occurrences (signature inert_view) [] = 0%nat) by reflexivity.
  rewrite Hzero in Hclaim.
  assert (0 = 1)%nat; [|discriminate].
  apply Hclaim; try reflexivity; lia.
Qed.

Lemma in_catalog_element_data device cat e :
  get_screen_elements device = Returned cat -> e ∈ cat ->
  exists i, e = element_data i.
Proof.
  intros Hrun He. destruct (gather device) as [raws|] eqn:Hgather.
  - rewrite (get_screen_elements_returned _ _ _ Hgather Hrun) in He.
    apply list_elem_of_fmap in He as (i & -> & _). by exists i.
  - unfold get_screen_elements in Hrun. rewrite Hgather in Hrun.
    injection Hrun as <-. by apply elem_of_nil in He.
Qed.

(** C2. Every entry of a returned catalog carries the selector of the
    priority rule: the resource id alone when there is one; else the text,
    with the class name when there is one; else the description, with the
    class name when there is one; else the class name alone; else nothing. *)
Theorem selector_priority device cat e :
  get_screen_elements device = Returned cat ->
  e ∈ cat ->
  (Element.resource_id e <> [] ->
   Element.selector e = [(py "resourceId", Element.resource_id e)])
  /\ (Element.resource_id e = [] -> Element.text e <> [] ->
      Element.selector e = (py "text", Element.text e) :: class_item e)
  /\ (Element.resource_id e = [] -> Element.text e = [] ->
      Element.description e <> [] ->
      Element.selector e
      = (py "description", Element.description e) :: class_item e)
  /\ (Element.resource_id e = [] -> Element.text e = [] ->
      Element.description e = [] -> Element.class_name e <> [] ->
      Element.selector e = [(py "className", Element.class_name e)])
  /\ (Element.resource_id e = [] -> Element.text e = [] ->
      Element.description e = [] -> Element.class_name e = [] ->
      Element.selector e = []).
Proof.
  intros Hrun He.
  destruct (in_catalog_element_data _ _ _ Hrun He) as [i ->].
  unfold class_item, element_data, construct_selector; simpl.
  destruct (Info.resourceId i), (Info.text i), (Info.contentDescription i),
    (Info.className i); simpl; repeat split; intros; congruence.
Qed.

Lemma selector_priority_witness :
  let device := device_with [handle next_button] [handle next_button] in
  let e := element_data next_button in
  get_screen_elements device = Returned [e]
  /\ e ∈ [e]
  /\ Element.resource_id e <> []
  /\ Element.selector e = [(py "resourceId", py "btn_next")].
Proof.
  intros device e.
  assert (Hrun : get_screen_elements device = Returned [e])
    by (vm_compute; reflexivity).
  assert (He : e ∈ [e]) by (by left).
  assert (Hid : Element.resource_id e <> []) by discriminate.
  refine (conj Hrun (conj He (conj Hid _))).
  exact (proj1 (selector_priority device [e] e Hrun He) Hid).
Defined.

(** C5, the failing run. The handle of a node that has left the screen
    raises on every evaluation of [info]; the handler of lines 137-140
    evaluates [info] again, so the failure leaves [get_screen_elements]
    and the button behind the stale handle is never catalogued. *)
Theorem inspection_failure_escapes :
  get_screen_elements (device_with [stale_handle; handle next_button] [])
  = Raised.
Proof. reflexivity. Qed.

(** What the handler does swallow: a failure that is gone when the handler
    looks again. *)
Lemma transient_failure_skipped elem i st :
  info elem 0 = ReadRaises ->
  info elem 1 = ReadInfo i ->
  info elem 2 = ReadInfo i ->
  loop_body elem st = Returned st.
Proof.
  intros H0 H1 H2. destruct st as [acc seen].
  unfold loop_body, handler. by rewrite H0, H1, H2.
Qed.

(** The build returns a catalog when no first evaluation of [info]
    raises. *)
Lemma for_each_returns raws st :
  Forall (fun elem => info elem 0 <> ReadRaises) raws ->
  exists st', for_each raws st = Returned st'.
Proof.
  intros Hraws. revert st.
  induction Hraws as [|elem raws Helem _ IH]; intros st; simpl.
  - by exists st.
  - assert (Hbody : exists st1, loop_body elem st = Returned st1).
    { destruct st as [acc seen]. unfold loop_body.
      destruct (info elem 0) as [| | |i]; [done|by eexists..|].
      destruct (bool_decide _); [by eexists|].
      destruct (negb _); by eexists. }
    destruct Hbody as [st1 ->]. simpl. apply IH.
Qed.

Lemma get_screen_elements_returns device :
  (forall raws, gather device = Returned raws ->
                Forall (fun elem => info elem 0 <> ReadRaises) raws) ->
  exists cat, get_screen_elements device = Returned cat.
Proof.
  intros Hraws. unfold get_screen_elements.
  destruct (gather device) as [raws|]; [|by eexists].
  destruct (for_each_returns raws ([], ∅) (Hraws raws eq_refl)) as [st ->].
  by eexists.
Qed.

(** ** The normalization *)

Lemma normalize_unfold text :
  normalize_to_snake_case text
  = if negb (truthy text) then py "unnamed_screen"
    else if negb (truthy (stripped text)) then py "unnamed_screen"
    else if py_isdigit (List.hd 0%N (stripped text))
         then py "screen_" ++ stripped text
    else stripped text.
Proof. reflexivity. Qed.

Lemma ident_char_lower c : ident_char c = true -> lower_char c = [c].
Proof. unfold ident_char, lower_char, underscore. intros Hc. chars. Qed.

Lemma ident_char_not_space c : ident_char c = true -> is_space c = false.
Proof. unfold ident_char, is_space, underscore. intros Hc. chars. Qed.

Lemma ident_char_not_dot c : ident_char c = true -> (dot =? c)%N = false.
Proof. unfold ident_char, dot, underscore. intros Hc. chars. Qed.

Lemma digit_not_underscore c : py_isdigit c = true -> is_underscore c = false.
Proof. unfold py_isdigit, is_underscore, underscore. intros Hc. chars. Qed.

Lemma digit_ident_char c : py_isdigit c = true -> ident_char c = true.
Proof. unfold py_isdigit, ident_char, underscore. intros Hc. chars. Qed.

Lemma py_lower_ident s :
  List.forallb ident_char s = true -> py_lower s = s.
Proof.
  induction s as [|c s IH]; simpl; [done|].
  intros [Hc Hs]%andb_prop. unfold py_lower in *. simpl.
  rewrite (ident_char_lower _ Hc), IH by done. reflexivity.
Qed.

Lemma sub_runs_fixed class repl in_run s :
  List.forallb (fun c => negb (class c)) s = true ->
  sub_runs class repl in_run s = s.
Proof.
  revert in_run. induction s as [|c s IH]; intros in_run; simpl; [done|].
  intros [Hc Hs]%andb_prop. apply negb_true_iff in Hc. rewrite Hc.
  by rewrite IH.
Qed.

Lemma forallb_weaken {A} (f g : A -> bool) (l : list A) :
  (forall x, f x = true -> g x = true) ->
  List.forallb f l = true -> List.forallb g l = true.
Proof.
  intros Hfg. induction l as [|a l IH]; simpl; [done|].
  intros [Ha Hl]%andb_prop. by rewrite (Hfg _ Ha), IH.
Qed.

Lemma filter_ident s :
  List.forallb ident_char (re_sub (One not_ident_char) (py "") s) = true.
Proof.
  induction s as [|c s IH]; simpl; [done|].
  unfold not_ident_char at 1. destruct (ident_char c) eqn:Hc; simpl.
  - by rewrite Hc.
  - exact IH.
Qed.

Lemma filter_ident_fixed s :
  List.forallb ident_char s = true ->
  re_sub (One not_ident_char) (py "") s = s.
Proof.
  induction s as [|c s IH]; simpl; [done|].
  intros [Hc Hs]%andb_prop. unfold not_ident_char at 1. rewrite Hc. simpl.
  f_equal. by apply IH.
Qed.

Lemma collapse_ident in_run s :
  List.forallb ident_char s = true ->
  List.forallb ident_char (sub_runs is_underscore (py "_") in_run s) = true.
Proof.
  revert in_run. induction s as [|c s IH]; intros in_run; simpl; [done|].
  intros [Hc Hs]%andb_prop.
  destruct (is_underscore c), in_run; simpl; rewrite ?Hc, ?IH; done.
Qed.

Lemma collapse_single in_run s :
  single_underscores (sub_runs is_underscore (py "_") in_run s) = true
  /\ (in_run = true ->
      is_underscore (List.hd 0%N (sub_runs is_underscore (py "_") in_run s))
      = false).
Proof.
  revert in_run. induction s as [|c s IH]; intros in_run; simpl; [done|].
  destruct (is_underscore c) eqn:Hc.
  - destruct (IH true) as [Hsingle Hhd]. destruct in_run; [done|].
    split; [|done]. simpl. by rewrite Hhd, Hsingle.
  - destruct (IH false) as [Hsingle _]. simpl. by rewrite Hc, Hsingle.
Qed.

Lemma collapse_fixed in_run s :
  single_underscores s = true ->
  (in_run = true -> is_underscore (List.hd 0%N s) = false) ->
  sub_runs is_underscore (py "_") in_run s = s.
Proof.
  revert in_run. induction s as [|c s IH]; intros in_run; simpl; [done|].
  intros [Hc Hs]%andb_prop Hrun. apply negb_true_iff in Hc.
  destruct (is_underscore c) eqn:Hu.
  - destruct in_run; [specialize (Hrun eq_refl); simpl in Hrun; congruence|].
    simpl in Hc. apply N.eqb_eq in Hu. subst c.
    change (py "_") with [underscore]. simpl. f_equal. by apply IH.
  - f_equal. by apply IH.
Qed.

(** [strip]: what [lstrip] and [rstrip] keep. *)
Lemma lstrip_app p l r :
  lstrip p (l ++ r)
  = match lstrip p l with [] => lstrip p r | kept => kept ++ r end.
Proof.
  induction l as [|a l IH]; simpl; [by destruct (lstrip p r)|].
  destruct (p a); [exact IH|done].
Qed.

Lemma rstrip_cons p h t :
  rstrip p (h :: t)
  = match rstrip p t with
    | [] => if p h then [] else [h]
    | _ :: _ => h :: rstrip p t
    end.
Proof.
  unfold rstrip. simpl. rewrite lstrip_app.
  destruct (lstrip p (List.rev t)) as [|x kept] eqn:Hkept; simpl.
  - by destruct (p h).
  - rewrite List.rev_app_distr. simpl.
    destruct (List.rev kept ++ [x]) eqn:Hrev; [|done].
    by apply app_eq_nil in Hrev as [_ ?].
Qed.

Lemma lstrip_suffix p s : exists pre, s = pre ++ lstrip p s.
Proof.
  induction s as [|c s [pre IH]]; simpl; [by exists []|].
  destruct (p c); [|by exists []].
  exists (c :: pre). simpl. by f_equal.
Qed.

Lemma rstrip_prefix p s : exists post, s = rstrip p s ++ post.
Proof.
  induction s as [|c s [post IH]]; [by exists []|].
  rewrite rstrip_cons. destruct (rstrip p s) as [|x kept].
  - destruct (p c); [by exists (c :: s)|]. exists s. done.
  - exists post. simpl. by f_equal.
Qed.

Lemma lstrip_hd p s d :
  lstrip p s <> [] -> p (List.hd d (lstrip p s)) = false.
Proof.
  induction s as [|c s IH]; simpl; [done|].
  destruct (p c) eqn:Hc; [exact IH|]. by intros _.
Qed.

Lemma rstrip_last p s d :
  rstrip p s <> [] -> p (List.last (rstrip p s) d) = false.
Proof.
  induction s as [|c s IH]; [done|].
  rewrite rstrip_cons. destruct (rstrip p s) as [|x kept] eqn:Hkept.
  - destruct (p c) eqn:Hc; [done|]. by intros _.
  - intros _. change (List.last (c :: x :: kept) d) with (List.last (x :: kept) d).
    by apply IH.
Qed.

Lemma rstrip_hd p s d :
  p (List.hd d s) = false -> s <> [] ->
  rstrip p s <> [] /\ List.hd d (rstrip p s) = List.hd d s.
Proof.
  destruct s as [|c s]; [done|]. simpl. intros Hc _.
  rewrite rstrip_cons, Hc. by destruct (rstrip p s).
Qed.

Lemma lstrip_fixed p s d :
  (s <> [] -> p (List.hd d s) = false) -> lstrip p s = s.
Proof. destruct s as [|c s]; simpl; [done|]. intros ->; done. Qed.

Lemma rstrip_fixed p s d :
  (s <> [] -> p (List.last s d) = false) -> rstrip p s = s.
Proof.
  induction s as [|c s IH]; [done|]. intros Hlast. rewrite rstrip_cons.
  destruct s as [|x s].
  - simpl in *. by rewrite Hlast.
  - rewrite IH; [done|]. intros _. apply Hlast. done.
Qed.

Lemma single_underscores_suffix pre s :
  single_underscores (pre ++ s) = true -> single_underscores s = true.
Proof.
  induction pre as [|c pre IH]; simpl; [done|].
  intros [_ H]%andb_prop. by apply IH.
Qed.

Lemma single_underscores_prefix s post :
  single_underscores (s ++ post) = true -> single_underscores s = true.
Proof.
  induction s as [|c s IH]; simpl; [done|].
  intros [Hc H]%andb_prop. rewrite (IH H), andb_true_r.
  destruct s as [|x s]; simpl in *; [|done].
  by rewrite andb_false_r.
Qed.

Lemma forallb_app_inv {A} (f : A -> bool) (l r : list A) :
  List.forallb f (l ++ r) = true ->
  List.forallb f l = true /\ List.forallb f r = true.
Proof. rewrite List.forallb_app. apply andb_prop. Qed.

Lemma strip_ends p s d :
  rstrip p (lstrip p s) <> [] ->
  p (List.hd d (rstrip p (lstrip p s))) = false
  /\ p (List.last (rstrip p (lstrip p s)) d) = false.
Proof.
  intros Hkept.
  assert (Hne : lstrip p s <> []) by (intros Hnil; by rewrite Hnil in Hkept).
  pose proof (lstrip_hd p s d Hne) as Hfirst.
  destruct (rstrip_hd p _ d Hfirst Hne) as [_ ->].
  split; [done|]. by apply rstrip_last.
Qed.

Lemma strip_sub p s :
  exists pre post, s = pre ++ rstrip p (lstrip p s) ++ post.
Proof.
  destruct (lstrip_suffix p s) as [pre Hpre].
  destruct (rstrip_prefix p (lstrip p s)) as [post Hpost].
  exists pre, post. by rewrite <- Hpost.
Qed.

Lemma strip_underscore_pred c :
  List.existsb (N.eqb c) (py "_") = is_underscore c.
Proof. unfold is_underscore. simpl. by rewrite orb_false_r. Qed.

(** [strip('_')] on a string of identifier characters with single
    underscores. *)
Lemma strip_snake_case s :
  List.forallb ident_char s = true ->
  single_underscores s = true ->
  snake_case (py_strip_chars (py "_") s) = true.
Proof.
  intros Hident Hsingle. unfold py_strip_chars.
  remember (fun c => List.existsb (N.eqb c) (py "_")) as p eqn:Hp.
  assert (Hpc : forall c, p c = is_underscore c)
    by (intros c; subst p; apply strip_underscore_pred).
  destruct (strip_sub p s) as (pre & post & Hsub).
  pose proof (strip_ends p s 0%N) as Hends.
  destruct (rstrip p (lstrip p s)) as [|c kept]; [done|].
  destruct Hends as [Hfirst Hlast]; [done|].
  rewrite Hpc in Hfirst, Hlast.
  rewrite Hsub in Hident, Hsingle.
  apply forallb_app_inv in Hident as [_ [Hident _]%forallb_app_inv].
  apply single_underscores_suffix, single_underscores_prefix in Hsingle.
  unfold snake_case. by rewrite Hident, Hsingle, Hfirst, Hlast.
Qed.

Lemma stripped_snake_case text : snake_case (stripped text) = true.
Proof.
  unfold stripped. apply strip_snake_case.
  - apply collapse_ident, filter_ident.
  - apply collapse_single.
Qed.

(** On a snake-case string lines 148-155 change nothing. *)
Lemma stripped_fixed t : snake_case t = true -> stripped t = t.
Proof.
  unfold snake_case.
  intros [[[Hident Hsingle]%andb_prop Hfirst%negb_true_iff]%andb_prop
            Hlast%negb_true_iff]%andb_prop.
  unfold stripped.
  assert (Hdot : List.existsb (N.eqb dot) t = false).
  { clear -Hident. induction t as [|c t IH]; [done|].
    cbn [List.existsb List.forallb] in *.
    apply andb_prop in Hident as [Hc Ht].
    by rewrite (ident_char_not_dot _ Hc), IH. }
  rewrite Hdot. cbn [andb]. rewrite (py_lower_ident _ Hident).
  change (re_sub (Plus is_space) (py "_") t)
    with (sub_runs is_space (py "_") false t).
  rewrite (sub_runs_fixed is_space _ false t)
    by (eapply forallb_weaken; [|exact Hident];
        intros c Hc; by rewrite (ident_char_not_space _ Hc)).
  rewrite (filter_ident_fixed _ Hident).
  change (re_sub (Plus is_underscore) (py "_") t)
    with (sub_runs is_underscore (py "_") false t).
  rewrite (collapse_fixed false t) by done.
  unfold py_strip_chars.
  rewrite (lstrip_fixed _ t 0%N)
    by (intros _; by rewrite strip_underscore_pred).
  apply (rstrip_fixed _ t 0%N). intros _. by rewrite strip_underscore_pred.
Qed.

(** What [normalize_to_snake_case] returns: a non-empty snake-case string
    that does not start with a digit. *)
Lemma normalize_normal_form text :
  let name := normalize_to_snake_case text in
  truthy name = true /\ snake_case name = true
  /\ py_isdigit (List.hd 0%N name) = false.
Proof.
  simpl. rewrite normalize_unfold.
  destruct (truthy text); simpl; [|done].
  pose proof (stripped_snake_case text) as Hsnake.
  destruct (stripped text) as [|c t] eqn:Ht; simpl; [done|].
  destruct (py_isdigit c) eqn:Hc; [|done].
  split; [done|]. split; [|done].
  unfold snake_case in *. simpl in Hsnake |- *.
  apply andb_prop in Hsnake
    as [[[[_ Hident]%andb_prop [Hct Hsingle]%andb_prop]%andb_prop _]%andb_prop
          Hlast].
  by rewrite (digit_ident_char _ Hc), Hident, Hct, Hsingle, Hlast,
    (digit_not_underscore _ Hc).
Qed.

(** C10. [normalize_to_snake_case] is idempotent, on every string and so on
    [Home Screen]. *)
Theorem normalize_idempotent :
  (forall text,
     normalize_to_snake_case (normalize_to_snake_case text)
     = normalize_to_snake_case text)
  /\ normalize_to_snake_case (py "Home Screen")
     = normalize_to_snake_case (normalize_to_snake_case (py "Home Screen")).
Proof.
  assert (Hall : forall text,
             normalize_to_snake_case (normalize_to_snake_case text)
             = normalize_to_snake_case text).
  { intros text.
    destruct (normalize_normal_form text) as (Hne & Hsnake & Hdigit).
    set (name := normalize_to_snake_case text) in *.
    rewrite normalize_unfold, (stripped_fixed _ Hsnake), Hne, Hdigit.
    reflexivity. }
  split; [exact Hall|]. symmetry. apply Hall.
Qed.

(** C3. The screen name is a source identifier, whatever the candidate and
    the catalog: not empty, of characters in [[a-z0-9_]] only, not starting
    with a digit. An empty candidate and a candidate that is stripped to
    nothing give [unnamed_screen]; a stripped candidate that starts with a
    digit gets the prefix [screen_]. *)
Theorem screen_name_valid_identifier :
  (forall device elements,
     valid_identifier (generate_screen_name device elements) = true)
  /\ (forall text, valid_identifier (normalize_to_snake_case text) = true)
  /\ normalize_to_snake_case (py "") = py "unnamed_screen"
  /\ (forall text,
        stripped text = [] ->
        normalize_to_snake_case text = py "unnamed_screen")
  /\ (forall text,
        py_isdigit (List.hd 0%N (stripped text)) = true ->
        normalize_to_snake_case text = py "screen_" ++ stripped text).
Proof.
  assert (Hvalid : forall text,
             valid_identifier (normalize_to_snake_case text) = true).
  { intros text.
    destruct (normalize_normal_form text) as (Hne & Hsnake & Hdigit).
    unfold valid_identifier. rewrite Hne, Hdigit. simpl.
    unfold snake_case in Hsnake.
    by apply andb_prop in Hsnake as [[[-> _]%andb_prop _]%andb_prop _]. }
  split; [intros device elements; apply Hvalid|].
  split; [exact Hvalid|]. split; [reflexivity|]. split.
  - intros text Hnil. rewrite normalize_unfold, Hnil. by destruct (truthy text).
  - intros text Hdigit. rewrite normalize_unfold, Hdigit.
    destruct text as [|c text]; [done|]. simpl.
    by destruct (stripped (c :: text)).
Qed.

(** The examples of the specification. *)
Example normalize_examples :
  normalize_to_snake_case (py "Settings") = py "settings"
  /\ normalize_to_snake_case (py "com.example.app.MainActivity")
     = py "mainactivity"
  /\ normalize_to_snake_case (py "  Multi   Space  ") = py "multi_space"
  /\ normalize_to_snake_case (py "123abc") = py "screen_123abc"
  /\ normalize_to_snake_case (py "") = py "unnamed_screen"
  /\ normalize_to_snake_case (py "Home Screen") = py "home_screen".
Proof. repeat split; reflexivity. Qed.

(** ** Literals: [repr] and the lexer *)

Lemma hex_value_digit d : (d < 16)%N -> hex_value (hex_digit d) = Some d.
Proof.
  intros Hd. unfold hex_value, hex_digit.
  destruct (N.ltb_spec d 10).
  - rewrite (proj2 (N.leb_le 0x30 (0x30 + d))) by lia.
    rewrite (proj2 (N.leb_le (0x30 + d) 0x39)) by lia. simpl. f_equal. lia.
  - rewrite (proj2 (N.leb_gt (0x61 + (d - 10)) 0x39)) by lia.
    rewrite andb_false_r.
    rewrite (proj2 (N.leb_le 0x61 (0x61 + (d - 10)))) by lia.
    rewrite (proj2 (N.leb_le (0x61 + (d - 10)) 0x66)) by lia.
    simpl. f_equal. lia.
Qed.

(** The lexer reads the leading digits of a hexadecimal escape. *)
Lemma lex_hex_digits quote k m v acc d tail :
  (d < 16 ^ N.of_nat k)%N ->
  lex_body quote (Hex (k + S m) v) acc (hex_digits k d ++ tail)
  = lex_body quote (Hex (S m) (16 ^ N.of_nat k * v + d)%N) acc tail.
Proof.
  revert m d tail. induction k as [|k IH]; intros m d tail Hd.
  - simpl in *. assert (d = 0)%N as -> by lia. f_equal. f_equal. lia.
  - cbn [hex_digits]. rewrite <- app_assoc. cbn [app].
    replace (S k + S m)%nat with (k + S (S m))%nat by lia.
    assert (Hpow : (16 ^ N.of_nat (S k) = 16 * 16 ^ N.of_nat k)%N).
    { rewrite Nat2N.inj_succ, N.pow_succ_r'. reflexivity. }
    rewrite IH.
    + cbn [lex_body]. rewrite hex_value_digit by (apply N.mod_lt; lia).
      f_equal. f_equal. rewrite Hpow.
      pose proof (N.div_mod d 16). lia.
    + rewrite Hpow in Hd. apply N.Div0.div_lt_upper_bound. lia.
Qed.

(** A whole hexadecimal escape of [n] digits, behind its letter. *)
Lemma lex_hex quote n acc c tail :
  (c < 16 ^ N.of_nat (S n))%N -> (c <= 0x10FFFF)%N ->
  lex_body quote (Hex (S n) 0) acc (hex_digits (S n) c ++ tail)
  = lex_body quote Plain (acc ++ [c]) tail.
Proof.
  intros Hc Hmax. cbn [hex_digits]. rewrite <- app_assoc. cbn [app].
  assert (Hpow : (16 ^ N.of_nat (S n) = 16 * 16 ^ N.of_nat n)%N).
  { rewrite Nat2N.inj_succ, N.pow_succ_r'. reflexivity. }
  replace (S n) with (n + 1)%nat by lia.
  rewrite lex_hex_digits
    by (rewrite Hpow in Hc; apply N.Div0.div_lt_upper_bound; lia).
  cbn [lex_body]. rewrite hex_value_digit by (apply N.mod_lt; lia).
  assert (Hval : (16 * (16 ^ N.of_nat n * 0 + c / 16) + c mod 16 = c)%N).
  { pose proof (N.div_mod c 16). lia. }
  rewrite Hval. rewrite (proj2 (N.leb_le _ _) Hmax). reflexivity.
Qed.

Lemma lex_raw quote c acc tail :
  c <> quote -> c <> backslash -> c <> 0x0A%N -> c <> 0x0D%N ->
  lex_body quote Plain acc (c :: tail)
  = lex_body quote Plain (acc ++ [c]) tail.
Proof.
  intros Hq Hb Hn Hr. cbn [lex_body].
  rewrite (proj2 (N.eqb_neq c quote) Hq), (proj2 (N.eqb_neq c backslash) Hb),
    (proj2 (N.eqb_neq c 0x0A) Hn), (proj2 (N.eqb_neq c 0x0D) Hr).
  reflexivity.
Qed.

Lemma lex_simple_escape quote c e acc tail :
  quote <> backslash -> simple_escape c = Some e ->
  lex_body quote Plain acc (backslash :: c :: tail)
  = lex_body quote Plain (acc ++ [e]) tail.
Proof.
  intros Hq He. cbn [lex_body].
  rewrite (proj2 (N.eqb_neq backslash quote)) by congruence.
  rewrite N.eqb_refl, He. reflexivity.
Qed.

Lemma lex_hex_escape quote letter n acc c tail :
  quote <> backslash ->
  (letter, n) ∈ [(0x78%N, 1%nat); (0x75%N, 3%nat); (0x55%N, 7%nat)] ->
  (c < 16 ^ N.of_nat (S n))%N -> (c <= 0x10FFFF)%N ->
  lex_body quote Plain acc (backslash :: letter :: hex_digits (S n) c ++ tail)
  = lex_body quote Plain (acc ++ [c]) tail.
Proof.
  intros Hq Hletter Hc Hmax.
  rewrite <- (lex_hex quote n acc c tail Hc Hmax).
  cbn [lex_body].
  rewrite (proj2 (N.eqb_neq backslash quote)) by congruence.
  rewrite N.eqb_refl.
  repeat (apply elem_of_cons in Hletter as [[= -> ->]|Hletter]);
    [reflexivity..|by apply elem_of_nil in Hletter].
Qed.

Section Literals.
Context `{Builtins}.

(** The lexer reads what [repr] writes for one code point. *)
Lemma lex_repr_char quote c acc tail :
  quote = squote \/ quote = dquote ->
  (c <= 0x10FFFF)%N ->
  lex_body quote Plain acc (repr_char quote c ++ tail)
  = lex_body quote Plain (acc ++ [c]) tail.
Proof.
  intros Hquote Hmax.
  assert (Hqb : quote <> backslash) by (destruct Hquote; subst; discriminate).
  unfold repr_char.
  destruct (N.eqb_spec c quote) as [->|Hcq]; cbn [orb].
  { apply lex_simple_escape; [done|]. by destruct Hquote; subst. }
  destruct (N.eqb_spec c backslash) as [->|Hcb].
  { by apply lex_simple_escape. }
  destruct (N.eqb_spec c 0x09) as [->|Htab].
  { by apply lex_simple_escape. }
  destruct (N.eqb_spec c 0x0A) as [->|Hnl].
  { by apply lex_simple_escape. }
  destruct (N.eqb_spec c 0x0D) as [->|Hcr].
  { by apply lex_simple_escape. }
  destruct (N.ltb_spec c 0x20) as [Hctl|Hctl]; cbn [orb].
  { apply (lex_hex_escape quote 0x78%N 1); [done|by left|simpl; lia|done]. }
  destruct (N.eqb_spec c 0x7F) as [->|Hdel].
  { apply (lex_hex_escape quote 0x78%N 1); [done|by left|simpl; lia|done]. }
  destruct (N.ltb_spec c 0x7F) as [Hascii|Hascii].
  { by apply lex_raw. }
  destruct (isprintable c).
  { by apply lex_raw. }
  destruct (N.leb_spec c 0xFF).
  { apply (lex_hex_escape quote 0x78%N 1); [done|by left|simpl; lia|done]. }
  destruct (N.leb_spec c 0xFFFF).
  { apply (lex_hex_escape quote 0x75%N 3);
      [done|by right; left|simpl; lia|done]. }
  apply (lex_hex_escape quote 0x55%N 7);
    [done|by right; right; left|simpl; lia|done].
Qed.

Lemma lex_repr_body quote s acc rest :
  quote = squote \/ quote = dquote ->
  valid_str s = true ->
  lex_body quote Plain acc (flat_map (repr_char quote) s ++ quote :: rest)
  = Some (acc ++ s, rest).
Proof.
  intros Hquote. revert acc. induction s as [|c s IH]; intros acc Hvalid.
  - cbn [flat_map app lex_body]. by rewrite N.eqb_refl, app_nil_r.
  - cbn [valid_str List.forallb] in Hvalid.
    apply andb_prop in Hvalid as [Hc Hs]. apply N.leb_le in Hc.
    cbn [flat_map]. rewrite <- app_assoc, lex_repr_char by done.
    rewrite IH by done. by rewrite <- app_assoc.
Qed.

(** What [repr] writes first inside the quotes is not the quote. *)
Lemma repr_char_head quote c :
  quote = squote \/ quote = dquote ->
  exists x xs, repr_char quote c = x :: xs /\ x <> quote.
Proof.
  intros Hquote.
  assert (Hqb : backslash <> quote) by (destruct Hquote; subst; discriminate).
  unfold repr_char.
  destruct (N.eqb_spec c quote) as [->|Hcq]; cbn [orb]; [by eexists _, _|].
  destruct (N.eqb_spec c backslash); [by eexists _, _|].
  destruct (N.eqb_spec c 0x09); [by eexists _, _|].
  destruct (N.eqb_spec c 0x0A); [by eexists _, _|].
  destruct (N.eqb_spec c 0x0D); [by eexists _, _|].
  destruct (N.ltb_spec c 0x20); cbn [orb]; [by eexists _, _|].
  destruct (N.eqb_spec c 0x7F); [by eexists _, _|].
  destruct (N.ltb_spec c 0x7F); [by eexists _, _|].
  destruct (isprintable c); [by eexists _, _|].
  destruct (N.leb_spec c 0xFF); [by eexists _, _|].
  destruct (N.leb_spec c 0xFFFF); by eexists _, _.
Qed.

(** [repr] round trip: the lexer reads a string back from its [repr],
    whatever follows the literal, a quote apart. *)
Lemma lex_repr s rest :
  valid_str s = true ->
  List.hd 0%N rest <> squote -> List.hd 0%N rest <> dquote ->
  lex_string_literal (py_repr s ++ rest) = Some (s, rest).
Proof.
  intros Hvalid Hsq Hdq. unfold py_repr.
  set (quote := if List.existsb (N.eqb squote) s
                     && negb (List.existsb (N.eqb dquote) s)
                then dquote else squote).
  assert (Hquote : quote = squote \/ quote = dquote)
    by (unfold quote; destruct (_ && _); auto).
  cbn [app lex_string_literal]. rewrite <- app_assoc. cbn [app].
  assert (Hor : ((quote =? squote) || (quote =? dquote))%N = true)
    by (destruct Hquote as [-> | ->]; reflexivity).
  rewrite Hor.
  assert (Htriple : starts_with [quote; quote]
                      (flat_map (repr_char quote) s ++ quote :: rest) = false).
  { destruct s as [|c s].
    - cbn [flat_map app starts_with]. rewrite N.eqb_refl.
      destruct rest as [|r rest']; [reflexivity|]. simpl in Hsq, Hdq.
      cbn [andb starts_with]. rewrite andb_true_r. apply N.eqb_neq.
      destruct Hquote; subst; congruence.
    - cbn [flat_map].
      destruct (repr_char_head quote c Hquote) as (x & xs & -> & Hx).
      cbn [app starts_with].
      rewrite (proj2 (N.eqb_neq quote x)) by congruence. reflexivity. }
  rewrite Htriple. rewrite lex_repr_body by done. reflexivity.
Qed.

End Literals.

(** ** The recorder *)

Section RecorderProperties.
Context `{Builtins}.

Lemma _get_user_choice_returned min_val max_val inputs choice rest :
  _get_user_choice min_val max_val inputs = Returned (choice, rest) ->
  (min_val <= choice <= max_val)%Z
  /\ exists skipped line,
       inputs = skipped ++ line :: rest
       /\ py_int (py_strip line) = Some choice
       /\ Forall (turned_down min_val max_val) skipped.
Proof.
  induction inputs as [|line inputs IH]; simpl; [discriminate|].
  destruct (py_int (py_strip line)) as [z|] eqn:Hint.
  - destruct ((min_val <=? z)%Z && (z <=? max_val)%Z) eqn:Hrange.
    + intros [= -> ->]. apply andb_prop in Hrange as [?%Z.leb_le ?%Z.leb_le].
      split; [lia|]. exists [], line. by repeat split.
    + intros Hrest. destruct (IH Hrest) as (Hin & skipped & l & -> & Hl & Hsk).
      split; [done|]. exists (line :: skipped), l. repeat split; [done|].
      constructor; [|done]. unfold turned_down. rewrite Hint.
      intros [? ?]. apply andb_false_iff in Hrange as [?%Z.leb_gt|?%Z.leb_gt];
        lia.
  - intros Hrest. destruct (IH Hrest) as (Hin & skipped & l & -> & Hl & Hsk).
    split; [done|]. exists (line :: skipped), l. repeat split; [done|].
    constructor; [|done]. unfold turned_down. by rewrite Hint.
Qed.

Lemma _get_user_choice_finds min_val max_val skipped line rest choice :
  Forall (turned_down min_val max_val) skipped ->
  py_int (py_strip line) = Some choice ->
  (min_val <= choice <= max_val)%Z ->
  _get_user_choice min_val max_val (skipped ++ line :: rest)
  = Returned (choice, rest).
Proof.
  intros Hsk Hline Hrange. induction Hsk as [|l skipped Hl _ IH]; simpl.
  - rewrite Hline.
    by rewrite (proj2 (Z.leb_le _ _) (proj1 Hrange)),
      (proj2 (Z.leb_le _ _) (proj2 Hrange)).
  - unfold turned_down in Hl. destruct (py_int (py_strip l)) as [z|]; [|done].
    destruct ((min_val <=? z)%Z && (z <=? max_val)%Z) eqn:Hz; [|done].
    apply andb_prop in Hz as [?%Z.leb_le ?%Z.leb_le]. lia.
Qed.

Lemma choose_element_returned elements inputs chosen rest :
  choose_element elements inputs = Returned (chosen, rest) ->
  (exists el, chosen = Some el /\ el ∈ elements)
  /\ (List.length rest < List.length inputs)%nat.
Proof.
  induction inputs as [|line inputs IH]; simpl; [discriminate|].
  assert (Hlater : choose_element elements inputs = Returned (chosen, rest) ->
                   (exists el, chosen = Some el /\ el ∈ elements)
                   /\ (List.length rest < S (List.length inputs))%nat).
  { intros Hrest. destruct (IH Hrest). split; [done|lia]. }
  destruct (py_int (py_strip line)) as [z|]; [|exact Hlater].
  destruct ((1 <=? z)%Z && (z <=? Z.of_nat (List.length elements))%Z)
    eqn:Hrange; [|exact Hlater].
  intros [= <- <-]. apply andb_prop in Hrange as [?%Z.leb_le ?%Z.leb_le].
  split; [|lia].
  destruct (List.nth_error elements (Z.to_nat (z - 1))) as [el|] eqn:Hnth.
  - exists el. split; [done|]. apply list_elem_of_In.
    by apply List.nth_error_In in Hnth.
  - apply List.nth_error_None in Hnth. lia.
Qed.

Lemma _get_element_from_list_returned elements inputs chosen rest :
  _get_element_from_list elements inputs = Returned (chosen, rest) ->
  (List.length rest <= List.length inputs)%nat
  /\ match chosen with
     | Some el => el ∈ elements
     | None => elements = []
     end.
Proof.
  destruct elements as [|e elements]; simpl.
  - by intros [= <- <-].
  - intros Hchoose. apply choose_element_returned in Hchoose
      as [(el & -> & Hel) Hlen]. split; [lia|done].
Qed.

Lemma input_returned inputs line rest :
  input inputs = Returned (line, rest) -> inputs = line :: rest.
Proof. destruct inputs; simpl; [discriminate|]. by intros [= -> ->]. Qed.

Lemma direction_or_default direction options fallback :
  fallback ∈ options ->
  (if negb (str_in direction options) then fallback else direction) ∈ options.
Proof.
  intros Hfallback. unfold str_in. case_bool_decide; simpl; done.
Qed.


Lemma iteration_break elements recorded_actions inputs rest :
  iteration elements recorded_actions inputs = Returned (Break, rest)
  <-> _get_user_choice 1 5 inputs = Returned (5%Z, rest).
Proof.
  unfold iteration.
  destruct (_get_user_choice 1 5 inputs) as [[choice r1]|] eqn:Hchoice;
    simpl; [|done].
  destruct (Z.eqb_spec choice 5) as [->|Hne].
  - split; intros [= ->]; done.
  - split; [|intros [= ? ?]; done].
    destruct (bool_decide _).
    + destruct (_get_element_from_list elements r1) as [[[el|] r2]|]; simpl;
        [|done..].
      repeat match goal with
        | |- context [if ?b then _ else _] => destruct b; simpl
        | |- context [input ?i] => destruct (input i) as [[? ?]|]; simpl
        end; done.
    + simpl. done.
Qed.

Lemma iteration_continue elements recorded_actions inputs recorded_actions'
  rest :
  iteration elements recorded_actions inputs
  = Returned (Continue recorded_actions', rest) ->
  (List.length rest < List.length inputs)%nat
  /\ (recorded_actions' = recorded_actions
      \/ exists a, recorded_actions' = recorded_actions ++ [a]
                   /\ recorded_for elements a).
Proof.
  unfold iteration.
  destruct (_get_user_choice 1 5 inputs) as [[choice r1]|] eqn:Hchoice;
    simpl; [|done].
  apply _get_user_choice_returned in Hchoice
    as (Hrange & skipped & line & -> & _ & _).
  rewrite List.length_app. simpl.
  destruct (Z.eqb_spec choice 5) as [->|Hne]; [done|].
  rewrite bool_decide_eq_true_2
    by (rewrite !elem_of_cons;
        assert (choice = 1 \/ choice = 2 \/ choice = 3 \/ choice = 4)%Z
          by lia; tauto).
  destruct (_get_element_from_list elements r1) as [[chosen r2]|] eqn:Hel;
    simpl; [|done].
  apply _get_element_from_list_returned in Hel as [Hlen Hchosen].
  destruct chosen as [el|]; [|intros [= <- <-]; split; [lia|by left]].
  assert (Hpick : forall a (r3 : list pystr),
             (List.length r3 <= List.length r2)%nat ->
             recorded_for elements a ->
             (List.length r3 < List.length skipped + S (List.length r1))%nat
             /\ (recorded_actions ++ [a] = recorded_actions
                 \/ exists a', recorded_actions ++ [a] = recorded_actions ++ [a']
                               /\ recorded_for elements a')).
  { intros a r3 Hr3 Ha. split; [lia|]. right. by exists a. }
  assert (Hskip : forall r3 : list pystr,
             (List.length r3 <= List.length r2)%nat ->
             (List.length r3 < List.length skipped + S (List.length r1))%nat
             /\ (recorded_actions = recorded_actions
                 \/ exists a', recorded_actions = recorded_actions ++ [a']
                               /\ recorded_for elements a')).
  { intros r3 Hr3. split; [lia|by left]. }
  destruct (Z.eqb_spec choice 1) as [_|_].
  { intros [= <- <-]. apply Hpick; [done|]. exists el. by repeat split. }
  destruct (Z.eqb_spec choice 2) as [_|_].
  { destruct (Element.editable el) eqn:Heditable; simpl;
      [|intros [= <- <-]; by apply Hskip].
    destruct (input r2) as [[text r3]|] eqn:Hinput; simpl; [|done].
    apply input_returned in Hinput as ->.
    intros [= <- <-]. apply Hpick; [simpl; lia|]. exists el. by repeat split. }
  destruct (Z.eqb_spec choice 3) as [_|_].
  { destruct (input r2) as [[text r3]|] eqn:Hinput; simpl; [|done].
    apply input_returned in Hinput as ->.
    intros [= <- <-]. apply Hpick; [simpl; lia|]. exists el.
    split; [done|].
    destruct (Element.scrollable el) eqn:Hscrollable; repeat split;
      try done; apply direction_or_default; rewrite !elem_of_cons; auto. }
  destruct (Z.eqb_spec choice 4) as [_|_]; [|intros [= <- <-]; by apply Hskip].
  destruct (Element.scrollable el) eqn:Hscrollable; simpl;
    [|intros [= <- <-]; by apply Hskip].
  destruct (input r2) as [[target r3]|] eqn:Hinput; simpl; [|done].
  apply input_returned in Hinput as ->.
  destruct (py_strip target) as [|c target_text] eqn:Htarget; simpl;
    [intros [= <- <-]; apply Hskip; simpl; lia|].
  destruct (input r3) as [[dir r4]|] eqn:Hinput; simpl; [|done].
  apply input_returned in Hinput as ->.
  intros [= <- <-]. apply Hpick; [simpl; lia|]. exists el.
  split; [done|]. repeat split; try done.
  apply direction_or_default. unfold scroll_direction_options.
  rewrite !elem_of_cons; auto.
Qed.


Lemma while_true_fuel fuel elements recorded_actions inputs :
  (List.length inputs < fuel)%nat ->
  while_true fuel elements recorded_actions inputs <> None.
Proof.
  revert recorded_actions inputs.
  induction fuel as [|fuel IH]; intros recorded_actions inputs Hfuel;
    [lia|]. simpl.
  destruct (iteration elements recorded_actions inputs)
    as [[[|recorded_actions'] rest]|] eqn:Hpass; [done| |done].
  apply iteration_continue in Hpass as [Hlen _]. apply IH. lia.
Qed.

Lemma while_true_returned fuel elements recorded_actions inputs final rest :
  while_true fuel elements recorded_actions inputs
  = Some (Returned (final, rest)) ->
  exists inputs',
    browsing elements recorded_actions inputs final inputs'
    /\ iteration elements final inputs' = Returned (Break, rest).
Proof.
  revert recorded_actions inputs.
  induction fuel as [|fuel IH]; intros recorded_actions inputs; simpl;
    [done|].
  destruct (iteration elements recorded_actions inputs)
    as [[[|recorded_actions'] inputs']|] eqn:Hpass; [| |done].
  - intros [= <- <-]. exists inputs. split; [constructor|done].
  - intros (inputs'' & Hrun & Hbreak)%IH. exists inputs''.
    split; [|done]. by econstructor.
Qed.

Lemma browsing_while_true elements recorded_actions inputs final inputs' rest
  fuel :
  browsing elements recorded_actions inputs final inputs' ->
  iteration elements final inputs' = Returned (Break, rest) ->
  (List.length inputs < fuel)%nat ->
  while_true fuel elements recorded_actions inputs
  = Some (Returned (final, rest)).
Proof.
  intros Hrun Hbreak. revert fuel.
  induction Hrun as [acts ins|acts ins acts' ins' acts'' ins'' Hpass _ IH];
    intros fuel Hfuel; (destruct fuel as [|fuel]; [lia|]); simpl.
  - by rewrite Hbreak.
  - rewrite Hpass. apply iteration_continue in Hpass as [Hlen _].
    apply IH; [done|lia].
Qed.

(** Passes through the loop add to the end of the list, and what they add
    has passed the recorder's checks. *)
Lemma browsing_accumulates elements recorded_actions inputs final inputs' :
  browsing elements recorded_actions inputs final inputs' ->
  exists added,
    final = recorded_actions ++ added /\ Forall (recorded_for elements) added.
Proof.
  induction 1 as [acts ins|acts ins acts' ins' acts'' ins'' Hpass _ IH].
  - exists []. by rewrite app_nil_r.
  - destruct IH as (added & -> & Hadded).
    apply iteration_continue in Hpass as [_ [->|(a & -> & Ha)]].
    + by exists added.
    + exists (a :: added). rewrite <- app_assoc. split; [done|].
      by constructor.
Qed.

Lemma build_actions_recorded elements inputs final rest :
  build_actions_for_screen elements inputs = Returned (final, rest) ->
  Forall (recorded_for elements) final.
Proof.
  unfold build_actions_for_screen. destruct elements as [|e elements].
  - intros [= <- <-]. constructor.
  - destruct (while_true _ _ _ _) as [[[acts r]|]|] eqn:Hloop; [|done..].
    intros [= -> ->]. apply while_true_returned in Hloop as (ins & Hrun & _).
    by apply browsing_accumulates in Hrun as (added & -> & Hadded).
Qed.


(** C4. The validation gates. A pass through the loop that picks "enter
    text" and an element that is not editable, or "scroll until text" and a
    container that is not scrollable, or "scroll until text", a scrollable
    container and a target text that is empty once stripped, is back at the
    top of the loop with the action list as it was. And every action of a
    returned list has passed the gates: a [set_text] was recorded against
    an editable element, a [scroll_to_text] against a scrollable one with a
    non-empty target. *)
Theorem validation_gates elements recorded_actions inputs :
  (forall menu_rest el rest,
     _get_element_from_list elements menu_rest = Returned (Some el, rest) ->
     (_get_user_choice 1 5 inputs = Returned (2%Z, menu_rest) ->
      Element.editable el = false ->
      iteration elements recorded_actions inputs
      = Returned (Continue recorded_actions, rest))
     /\ (_get_user_choice 1 5 inputs = Returned (4%Z, menu_rest) ->
         Element.scrollable el = false ->
         iteration elements recorded_actions inputs
         = Returned (Continue recorded_actions, rest))
     /\ (_get_user_choice 1 5 inputs = Returned (4%Z, menu_rest) ->
         Element.scrollable el = true ->
         forall line rest',
           rest = line :: rest' -> py_strip line = [] ->
           iteration elements recorded_actions inputs
           = Returned (Continue recorded_actions, rest')))
  /\ (forall final rest,
        build_actions_for_screen elements inputs = Returned (final, rest) ->
        Forall (recorded_for elements) final).
Proof.
  split; [|intros final rest; apply build_actions_recorded].
  intros menu_rest el rest Hel. unfold iteration. repeat split.
  - intros -> Heditable. simpl. rewrite Hel. simpl. by rewrite Heditable.
  - intros -> Hscrollable. simpl. rewrite Hel. simpl. by rewrite Hscrollable.
  - intros -> Hscrollable line rest' -> Hempty. simpl. rewrite Hel. simpl.
    by rewrite Hscrollable, Hempty.
Qed.

(** C9 (as the code has it). On an empty catalog the recorder returns the
    empty list at once, without reading a line. On any other catalog it
    returns exactly when the operator, at the top of the loop, gives a line
    that the menu reads as choice 5 (behind any number of lines the menu
    turns down); it then returns the list accumulated by the passes before,
    and the lines behind that choice are left unread. *)
Theorem recorder_done_on_finish elements inputs final rest :
  (elements = [] ->
   build_actions_for_screen elements inputs = Returned ([], inputs))
  /\ (elements <> [] ->
      (build_actions_for_screen elements inputs = Returned (final, rest)
       <-> exists inputs' skipped line,
             browsing elements [] inputs final inputs'
             /\ inputs' = skipped ++ line :: rest
             /\ Forall (turned_down 1 5) skipped
             /\ py_int (py_strip line) = Some 5%Z)).
Proof.
  split; [by intros ->|]. intros Hne.
  unfold build_actions_for_screen.
  destruct elements as [|e elements]; [done|]. split.
  - destruct (while_true _ _ _ _) as [[[acts r]|]|] eqn:Hloop; [|done..].
    intros [= -> ->].
    apply while_true_returned in Hloop as (inputs' & Hrun & Hbreak).
    apply iteration_break, _get_user_choice_returned in Hbreak
      as (_ & skipped & line & -> & Hline & Hskipped).
    by exists (skipped ++ line :: rest), skipped, line.
  - intros (inputs' & skipped & line & Hrun & -> & Hskipped & Hline).
    rewrite (browsing_while_true _ _ _ _ _ rest _ Hrun); [done| |lia].
    apply iteration_break. by apply _get_user_choice_finds.
Qed.

(** C6 (as the code has it). A scroll-to-text action of a returned list
    carries its direction, one of the six, in its description; the
    statement emitted for it is [d(...).scroll.to(text=...)] whatever the
    direction is. *)
Theorem scroll_to_text_direction elements inputs final rest
  scroll_element_selector target_text direction description :
  build_actions_for_screen elements inputs = Returned (final, rest) ->
  scroll_to_text scroll_element_selector target_text direction description
  ∈ final ->
  direction ∈ scroll_direction_options
  /\ (exists el_desc,
        description
        = scroll_to_text_description el_desc direction target_text)
  /\ forall any_direction any_description,
       code_line (scroll_to_text scroll_element_selector target_text
                    any_direction any_description)
       = py "    d(" ++ _build_selector_string scroll_element_selector
           ++ py ").scroll.to(text=" ++ py_repr target_text ++ py ")".
Proof.
  intros Hrun Hin. apply build_actions_recorded in Hrun.
  rewrite Forall_forall in Hrun. apply Hrun in Hin
    as (el & _ & _ & _ & _ & Hdirection & Hdescription).
  split; [done|]. split; [by eexists|]. reflexivity.
Qed.

End RecorderProperties.

(** ** The emitter *)

(** C7. The statements emitted for [set_text] and for [scroll_to_text] end
    in the [repr] of the text and a closing parenthesis, and the lexer reads
    that literal back as the text itself, with the parenthesis left over:
    no quote, backslash or control character of the text ends the literal
    early or changes its value. *)
Theorem text_literal_round_trip `{Builtins} element_selector text direction
  description :
  valid_str text = true ->
  code_line (set_text element_selector text description)
  = py "    d(" ++ _build_selector_string element_selector
      ++ py ").set_text(" ++ py_repr text ++ py ")"
  /\ code_line (scroll_to_text element_selector text direction description)
     = py "    d(" ++ _build_selector_string element_selector
         ++ py ").scroll.to(text=" ++ py_repr text ++ py ")"
  /\ lex_string_literal (py_repr text ++ py ")") = Some (text, py ")").
Proof.
  intros Hvalid. split; [reflexivity|]. split; [reflexivity|].
  apply lex_repr; [done|discriminate..].
Qed.

Lemma text_literal_round_trip_witness :
  valid_str quoted_text = true
  /\ lex_string_literal
       (@py_repr ascii_builtins quoted_text ++ py ")")
     = Some (quoted_text, py ")").
Proof.
  assert (Hvalid : valid_str quoted_text = true) by reflexivity.
  refine (conj Hvalid _).
  exact (proj2 (proj2 (@text_literal_round_trip ascii_builtins [] quoted_text
                         [] [] Hvalid))).
Defined.

(** The literal as it is written for [quoted_text]. *)
Example repr_quoted_text :
  @py_repr ascii_builtins quoted_text
  = py "'it\'s " ++ [dquote] ++ py "x" ++ [dquote] ++ py "'".
Proof. reflexivity. Qed.

(** C6, counterexample to the wording of the specification: recorded with
    [forward] or with [backward], the action is emitted as one and the
    same statement. *)
Lemma direction_not_in_emitted_call :
  @code_line ascii_builtins
    (scroll_to_text [(py "description", py "Settings")] (py "Wi-Fi")
       (py "forward") [])
  = @code_line ascii_builtins
      (scroll_to_text [(py "description", py "Settings")] (py "Wi-Fi")
         (py "backward") [])
  /\ ~ direction_in_emitted_call.
Proof.
  split; [reflexivity|]. intros Hclaim.
  specialize (Hclaim ascii_builtins [(py "description", py "Settings")]
                (py "Wi-Fi") (py "forward") (py "backward") [] [] eq_refl).
  discriminate Hclaim.
Qed.

Lemma scroll_to_text_direction_witness :
  @build_actions_for_screen ascii_builtins sample_catalog sample_lines
  = Returned (sample_actions, [py "no"])
  /\ py "backward" ∈ scroll_direction_options
  /\ @code_line ascii_builtins
       (scroll_to_text
          [(py "description", py "Settings");
           (py "className", py "android.widget.ListView")]
          (py "Wi-Fi") (py "forward") [])
     = py "    d(description='Settings', className='android.widget.ListView').scroll.to(text='Wi-Fi')".
Proof.
  assert (Hrun : @build_actions_for_screen ascii_builtins sample_catalog
                   sample_lines = Returned (sample_actions, [py "no"]))
    by (vm_compute; reflexivity).
  refine (conj Hrun _).
  pose proof (@scroll_to_text_direction ascii_builtins sample_catalog
                sample_lines sample_actions [py "no"]
                [(py "description", py "Settings");
                 (py "className", py "android.widget.ListView")]
                (py "Wi-Fi") (py "backward")
                (py "Scroll Desc:'Settings' (android.widget.ListView) backward until element with text 'Wi-Fi' is visible")
                Hrun) as Hthm.
  assert (Hin : scroll_to_text
                  [(py "description", py "Settings");
                   (py "className", py "android.widget.ListView")]
                  (py "Wi-Fi") (py "backward")
                  (py "Scroll Desc:'Settings' (android.widget.ListView) backward until element with text 'Wi-Fi' is visible")
                ∈ sample_actions) by (right; left).
  destruct (Hthm Hin) as (Hdirection & _ & Hline).
  refine (conj Hdirection _).
  rewrite (Hline (py "forward") []). vm_compute. reflexivity.
Defined.

(** The routine emitted for one click on the button [btn_next]. *)
Example next_screen_routine :
  @generate_python_function ascii_builtins (py "next_screen")
    [click [(py "resourceId", py "btn_next")]
       (py "Click on 'Next' (android.widget.Button)")]
  = py_join [0x0A%N]
      [ py "def next_screen(d):";
        py "    " ++ [dquote; dquote; dquote]
          ++ py "Automates actions on the next_screen screen."
          ++ [dquote; dquote; dquote];
        py "    print(f'Executing actions for next_screen screen...')";
        py "    d(resourceId='btn_next').click()";
        py "    time.sleep(0.5) # Stability delay" ].
Proof. vm_compute. reflexivity. Qed.

(** With no action the body is [pass]. *)
Example empty_routine :
  @generate_python_function ascii_builtins (py "home") []
  = py_join [0x0A%N]
      [ py "def home(d):";
        py "    " ++ [dquote; dquote; dquote]
          ++ py "Automates actions on the home screen."
          ++ [dquote; dquote; dquote];
        py "    print(f'Executing actions for home screen...')";
        py "    pass" ].
Proof. vm_compute. reflexivity. Qed.

(** ** The recorder on the sample session *)

Lemma validation_gates_witness :
  @_get_user_choice ascii_builtins 1 5 sample_lines
  = Returned (2%Z, List.tl sample_lines)
  /\ @_get_element_from_list ascii_builtins sample_catalog
       (List.tl sample_lines)
     = Returned (Some (element_data next_button),
                 List.tl (List.tl sample_lines))
  /\ Element.editable (element_data next_button) = false
  /\ @iteration ascii_builtins sample_catalog [] sample_lines
     = Returned (Continue [], List.tl (List.tl sample_lines)).
Proof.
  assert (Hmenu : @_get_user_choice ascii_builtins 1 5 sample_lines
                  = Returned (2%Z, List.tl sample_lines))
    by (vm_compute; reflexivity).
  assert (Hel : @_get_element_from_list ascii_builtins sample_catalog
                  (List.tl sample_lines)
                = Returned (Some (element_data next_button),
                            List.tl (List.tl sample_lines)))
    by (vm_compute; reflexivity).
  assert (Hed : Element.editable (element_data next_button) = false)
    by (vm_compute; reflexivity).
  refine (conj Hmenu (conj Hel (conj Hed _))).
  exact (proj1 (proj1 (@validation_gates ascii_builtins sample_catalog []
                         sample_lines) _ _ _ Hel) Hmenu Hed).
Defined.

(** C9, counterexample to the wording of the specification: on the empty
    catalog the recorder returns with no line read at all. *)
Lemma done_without_finish :
  @build_actions_for_screen ascii_builtins [] [] = Returned ([], [])
  /\ ~ done_only_by_finish.
Proof.
  split; [reflexivity|]. intros Hclaim.
  destruct (Hclaim ascii_builtins [] [] [] [] eq_refl)
    as (before & line & Hlines & _).
  by destruct before.
Qed.

Lemma recorder_done_on_finish_witness :
  sample_catalog <> []
  /\ @build_actions_for_screen ascii_builtins sample_catalog sample_lines
     = Returned (sample_actions, [py "no"])
  /\ exists inputs' skipped line,
       @browsing ascii_builtins sample_catalog [] sample_lines sample_actions
         inputs'
       /\ inputs' = skipped ++ line :: [py "no"]
       /\ Forall (@turned_down ascii_builtins 1 5) skipped
       /\ @py_int ascii_builtins (py_strip line) = Some 5%Z.
Proof.
  assert (Hne : sample_catalog <> []) by discriminate.
  assert (Hrun : @build_actions_for_screen ascii_builtins sample_catalog
                   sample_lines = Returned (sample_actions, [py "no"]))
    by (vm_compute; reflexivity).
  refine (conj Hne (conj Hrun _)).
  exact (proj1 (proj2 (@recorder_done_on_finish ascii_builtins sample_catalog
                         sample_lines sample_actions [py "no"]) Hne) Hrun).
Defined.

(** ** The emitted helper *)

(** In the literal of the generator, which is not raw, [\s] is no escape
    sequence: the lexer keeps the backslash, and the pattern the helper
    compiles is the [\s+] of line 151. *)
Lemma helper_pattern_keeps_backslash :
  lex_body dquote Plain []
    (py "    text = re.sub(r'\s+', '_', text)" ++ [dquote])
  = Some (py "    text = re.sub(r'\s+', '_', text)", []).
Proof. vm_compute. reflexivity. Qed.

(** C8. The function the helper block defines and the interactive one give
    the same result on every string. *)
Theorem helper_normalize_equivalent text :
  Helper.normalize_to_snake_case text = normalize_to_snake_case text.
Proof.
  unfold Helper.normalize_to_snake_case. rewrite normalize_unfold.
  unfold stripped. reflexivity.
Qed.

(** The screen name of the sample catalog, which has no text label, is the
    activity name, normalized. *)
Lemma screen_name_valid_identifier_witness :
  let device := device_with [handle next_button] [] in
  generate_screen_name device sample_catalog = py "mainactivity"
  /\ valid_identifier (generate_screen_name device sample_catalog) = true
  /\ stripped (py "123 Go!") = py "123_go"
  /\ normalize_to_snake_case (py "123 Go!") = py "screen_123_go"
  /\ normalize_to_snake_case (py "?!") = py "unnamed_screen".
Proof.
  intros device.
  destruct screen_name_valid_identifier
    as (Hname & _ & _ & Hempty & Hdigit).
  split; [vm_compute; reflexivity|]. split; [apply Hname|].
  split; [vm_compute; reflexivity|]. split.
  - exact (Hdigit (py "123 Go!") eq_refl).
  - exact (Hempty (py "?!") eq_refl).
Defined.

(** * Further properties *)

(** ** The prompts of the recorder *)

Section Prompts.
Context `{Builtins}.

Lemma _get_user_choice_raised min_val max_val inputs :
  _get_user_choice min_val max_val inputs = Raised
  <-> Forall (turned_down min_val max_val) inputs.
Proof.
  induction inputs as [|line inputs IH]; simpl.
  - split; [constructor|done].
  - rewrite Forall_cons. unfold turned_down at 1.
    destruct (py_int (py_strip line)) as [z|]; [|tauto].
    destruct ((min_val <=? z)%Z && (z <=? max_val)%Z) eqn:Hrange.
    + apply andb_prop in Hrange as [?%Z.leb_le ?%Z.leb_le].
      split; [done|]. intros [Hz _]. lia.
    + apply andb_false_iff in Hrange. rewrite IH.
      split; [|tauto]. intros Hrest. split; [|done].
      destruct Hrange as [?%Z.leb_gt|?%Z.leb_gt]; lia.
Qed.

(** X1. The menu prompt asks again until a line reads as a number between
    its bounds, both included: it returns exactly the first such number,
    with the lines behind it left unread, and the only way it fails is the
    end of the input behind lines it has all turned down. *)
Theorem menu_prompt_asks_again min_val max_val inputs :
  (forall choice rest,
     _get_user_choice min_val max_val inputs = Returned (choice, rest)
     <-> exists skipped line,
           inputs = skipped ++ line :: rest
           /\ Forall (turned_down min_val max_val) skipped
           /\ py_int (py_strip line) = Some choice
           /\ (min_val <= choice <= max_val)%Z)
  /\ (_get_user_choice min_val max_val inputs = Raised
      <-> Forall (turned_down min_val max_val) inputs).
Proof.
  split; [|apply _get_user_choice_raised].
  intros choice rest. split.
  - intros Hret. apply _get_user_choice_returned in Hret
      as (Hrange & skipped & line & -> & Hline & Hskipped).
    by exists skipped, line.
  - intros (skipped & line & -> & Hskipped & Hline & Hrange).
    by apply _get_user_choice_finds.
Qed.

(** The element prompt is the menu prompt between 1 and the length of the
    list, followed by the lookup. *)
Lemma choose_element_menu elements inputs :
  choose_element elements inputs
  = '(choice, rest) ← _get_user_choice 1 (Z.of_nat (List.length elements))
                        inputs;
    Returned (List.nth_error elements (Z.to_nat (choice - 1)), rest).
Proof.
  induction inputs as [|line inputs IH]; simpl; [done|].
  destruct (py_int (py_strip line)) as [z|]; [|exact IH].
  destruct ((1 <=? z)%Z && (z <=? Z.of_nat (List.length elements))%Z);
    [done|exact IH].
Qed.

(** X2. The element prompt counts from 1. On an empty list it returns no
    element and reads nothing. On any other list it asks again until a line
    reads as a number between 1 and the length of the list, and returns the
    element at that position, counted from 1; it never returns without an
    element there. *)
Theorem element_prompt_counts_from_one elements inputs :
  (elements = [] ->
   _get_element_from_list elements inputs = Returned (None, inputs))
  /\ (elements <> [] ->
      forall chosen rest,
        _get_element_from_list elements inputs = Returned (chosen, rest)
        <-> exists skipped line choice el,
              inputs = skipped ++ line :: rest
              /\ Forall (turned_down 1 (Z.of_nat (List.length elements)))
                   skipped
              /\ py_int (py_strip line) = Some choice
              /\ (1 <= choice <= Z.of_nat (List.length elements))%Z
              /\ elements !! (Z.to_nat choice - 1)%nat = Some el
              /\ chosen = Some el).
Proof.
  split; [by intros ->|]. intros Hne chosen rest.
  assert (Hnth : forall choice : Z,
             (1 <= choice)%Z ->
             List.nth_error elements (Z.to_nat (choice - 1))
             = elements !! (Z.to_nat choice - 1)%nat).
  { intros choice Hchoice.
    replace (Z.to_nat (choice - 1)) with (Z.to_nat choice - 1)%nat by lia.
    clear. generalize (Z.to_nat choice - 1)%nat. intros n.
    revert n. induction elements as [|e l IH]; intros [|n]; simpl; auto. }
  unfold _get_element_from_list. destruct elements as [|e elements]; [done|].
  rewrite choose_element_menu.
  set (all := e :: elements) in *. split.
  - destruct (_get_user_choice 1 _ inputs) as [[choice r]|] eqn:Hmenu;
      simpl; [|done].
    intros [= <- <-].
    apply _get_user_choice_returned in Hmenu
      as (Hrange & skipped & line & -> & Hline & Hskipped).
    rewrite Hnth by lia.
    destruct (all !! (Z.to_nat choice - 1)%nat) as [el|] eqn:Hel.
    + by exists skipped, line, choice, el.
    + apply lookup_ge_None in Hel. lia.
  - intros (skipped & line & choice & el & -> & Hskipped & Hline & Hrange
            & Hel & ->).
    rewrite (_get_user_choice_finds _ _ _ _ _ _ Hskipped Hline Hrange).
    simpl. rewrite Hnth by lia. by rewrite Hel.
Qed.

End Prompts.

(** Three elements to choose from: [0] and [x] are turned down, [2] picks
    the second one. *)
Lemma element_prompt_counts_from_one_witness :
  sample_catalog <> []
  /\ @_get_element_from_list ascii_builtins sample_catalog
       [py "0"; py "x"; py " 2 "; py "5"]
     = Returned (Some (element_data name_field), [py "5"]).
Proof.
  assert (Hne : sample_catalog <> []) by discriminate.
  refine (conj Hne _).
  apply (proj2 (@element_prompt_counts_from_one ascii_builtins sample_catalog
                  [py "0"; py "x"; py " 2 "; py "5"]) Hne).
  exists [py "0"; py "x"], (py " 2 "), 2%Z, (element_data name_field).
  split; [reflexivity|]. split.
  - repeat constructor. unfold turned_down. simpl. lia.
  - split; [reflexivity|]. split; [simpl; lia|]. split; reflexivity.
Defined.

(** ** Entries of the catalog *)

(** X3. Every entry of a returned catalog is interactable: one of its
    flags [clickable], [long_clickable], [scrollable], [checkable] and
    [editable] is set. Its [editable] flag is set whenever its class is one
    of the editable classes, whatever the attribute map said. *)
Theorem catalog_entries_interactable device cat e :
  get_screen_elements device = Returned cat ->
  e ∈ cat ->
  (Element.clickable e || Element.long_clickable e || Element.scrollable e
   || Element.checkable e || Element.editable e = true)
  /\ (Element.class_name e ∈ EDITABLE_CLASS_NAMES ->
      Element.editable e = true).
Proof.
  intros Hrun He.
  destruct (gather device) as [raws|] eqn:Hgather.
  - rewrite (get_screen_elements_returned _ _ _ Hgather Hrun) in He.
    apply list_elem_of_fmap in He as (i & -> & Hi).
    apply elem_of_filter in Hi as [_ Hi]. split; [exact Hi|].
    simpl. intros Hclass. unfold is_editable, str_in.
    destruct (Info.editable i); [done|]. by apply bool_decide_eq_true.
  - unfold get_screen_elements in Hrun. rewrite Hgather in Hrun.
    injection Hrun as <-. by apply elem_of_nil in He.
Qed.

(** The text field of the sample screen is catalogued as editable by its
    class: its attribute map does not say so. *)
Lemma catalog_entries_interactable_witness :
  let device := device_with [handle next_button; handle name_field] [] in
  let e := element_data name_field in
  get_screen_elements device = Returned [element_data next_button; e]
  /\ e ∈ [element_data next_button; e]
  /\ Info.editable name_field = false
  /\ Element.class_name e ∈ EDITABLE_CLASS_NAMES
  /\ Element.editable e = true.
Proof.
  intros device e.
  assert (Hrun : get_screen_elements device
                 = Returned [element_data next_button; e])
    by (vm_compute; reflexivity).
  assert (He : e ∈ [element_data next_button; e]) by (right; by left).
  assert (Hclass : Element.class_name e ∈ EDITABLE_CLASS_NAMES) by (by left).
  refine (conj Hrun (conj He (conj eq_refl (conj Hclass _)))).
  exact (proj2 (catalog_entries_interactable device _ e Hrun He) Hclass).
Defined.

(** ** When the builder raises *)

Lemma loop_body_raised elem st :
  loop_body elem st = Raised <-> inspection_escapes elem = true.
Proof.
  destruct st as [acc seen]. unfold loop_body, handler, inspection_escapes.
  destruct (info elem 0) as [| | |i]; [|done..|].
  - destruct (info elem 1); [done..|]. by destruct (info elem 2).
  - destruct (bool_decide _); [by destruct (info elem 1)|].
    destruct (negb _); by destruct (info elem 1).
Qed.

Lemma for_each_raised raws st :
  for_each raws st = Raised
  <-> Exists (fun elem => inspection_escapes elem = true) raws.
Proof.
  revert st. induction raws as [|elem raws IH]; intros st; simpl.
  - rewrite Exists_nil. done.
  - rewrite Exists_cons.
    destruct (loop_body elem st) as [st1|] eqn:Hbody; simpl.
    + rewrite IH. split; [by right|]. intros [Helem|Hrest]; [|done].
      apply (loop_body_raised elem st) in Helem. congruence.
    + split; [|done]. intros _. left. by apply (loop_body_raised elem st).
Qed.

(** X4. What [get_screen_elements] does, case by case. When one of the
    queries raises it returns the empty catalog. Otherwise it raises exactly
    when the inspection of some raw result fails so that the handler of
    lines 137-140 fails too; and when no raw result does, it returns the
    entries of the first occurrences of the signatures that pass the
    interactability test, in discovery order. Raw results whose attribute
    map is empty, or whose failure is gone when the handler looks again,
    leave no trace. *)
Theorem builder_outcome device :
  (gather device = Raised -> get_screen_elements device = Returned [])
  /\ (forall raws,
        gather device = Returned raws ->
        (get_screen_elements device = Raised
         <-> Exists (fun elem => inspection_escapes elem = true) raws)
        /\ (Forall (fun elem => inspection_escapes elem = false) raws ->
            get_screen_elements device
            = Returned (element_data
                          <$> List.filter interactable
                                (fresh ∅ (inspected raws))))).
Proof.
  unfold get_screen_elements. split; [by intros ->|].
  intros raws ->.
  destruct (for_each raws ([], ∅)) as [st|] eqn:Hrun; simpl.
  - split.
    + split; [done|]. intros Hex%(for_each_raised raws ([], ∅)). congruence.
    + intros _. apply for_each_returned in Hrun. subst st.
      by rewrite fold_process_info.
  - apply for_each_raised in Hrun. split; [done|].
    intros Hall. apply Exists_exists in Hrun as (elem & Hin & Helem).
    rewrite Forall_forall in Hall. apply Hall in Hin. congruence.
Qed.

(** A handle that fails once leaves no trace: the button behind it is
    catalogued. *)
Lemma builder_outcome_witness :
  let device := device_with [flaky_handle inert_view; handle next_button] [] in
  let raws := [flaky_handle inert_view; handle next_button] in
  gather device = Returned raws
  /\ Forall (fun elem => inspection_escapes elem = false) raws
  /\ get_screen_elements device = Returned [element_data next_button].
Proof.
  intros device raws.
  assert (Hgather : gather device = Returned raws) by reflexivity.
  assert (Hall : Forall (fun elem => inspection_escapes elem = false) raws)
    by (by repeat constructor).
  refine (conj Hgather (conj Hall _)).
  rewrite (proj2 (proj2 (builder_outcome device) raws Hgather) Hall).
  vm_compute. reflexivity.
Defined.

(** ** The selector string *)

Section SelectorString.
Context `{Builtins}.

(** The first loop of [_build_selector_string] (lines 461-464). *)
Lemma preferred_loop (selector_dict : Selector) (keys parts : list pystr)
  (processed_keys : gset pystr) :
  let result :=
    List.fold_left
      (fun (acc : list pystr * gset pystr) key =>
         let '(parts, processed_keys) := acc in
         match dict_get key selector_dict with
         | Some value =>
             if truthy value
             then (parts ++ [key ++ py "=" ++ py_repr value],
                   {[ key ]} ∪ processed_keys)
             else acc
         | None => acc
         end)
      keys (parts, processed_keys) in
  result.1 = parts ++ (keyword_argument
                         <$> omap (preferred_item selector_dict) keys)
  /\ forall key,
       key ∈ result.2
       <-> key ∈ processed_keys
           \/ key ∈ (omap (preferred_item selector_dict) keys).*1.
Proof.
  revert parts processed_keys.
  induction keys as [|k keys IH]; intros parts processed_keys.
  - simpl. rewrite app_nil_r. split; [done|]. intros key.
    rewrite elem_of_nil. tauto.
  - cbn [List.fold_left omap list_omap].
    assert (Hitem : preferred_item selector_dict k
                    = match dict_get k selector_dict with
                      | Some value =>
                          if truthy value then Some (k, value) else None
                      | None => None
                      end) by done.
    destruct (dict_get k selector_dict) as [value|];
      [destruct (truthy value)|]; rewrite Hitem; [|apply IH..].
    destruct (IH (parts ++ [k ++ py "=" ++ py_repr value])
                ({[ k ]} ∪ processed_keys)) as [Hparts Hkeys].
    cbv zeta. split.
    + rewrite Hparts. by rewrite <- app_assoc.
    + intros key. rewrite Hkeys, elem_of_union, elem_of_singleton.
      simpl. rewrite elem_of_cons. tauto.
Qed.

(** The second loop (lines 467-469). *)
Lemma other_loop (processed_keys : gset pystr) (items : Selector)
  (parts : list pystr) :
  List.fold_left
    (fun (parts : list pystr) (item : pystr * pystr) =>
       let '(key, value) := item in
       if negb (bool_decide (key ∈ processed_keys)) && truthy value
       then parts ++ [key ++ py "=" ++ py_repr value]
       else parts)
    items parts
  = parts ++ (keyword_argument
                <$> List.filter
                      (fun item => negb (bool_decide (item.1 ∈ processed_keys))
                                   && truthy item.2)
                      items).
Proof.
  revert parts. induction items as [|[key value] items IH]; intros parts;
    simpl; [by rewrite app_nil_r|].
  rewrite IH. destruct (negb _ && truthy value); [|done].
  simpl. by rewrite <- app_assoc.
Qed.

Lemma dict_get_elem_of key value (selector_dict : Selector) :
  NoDup selector_dict.*1 ->
  (key, value) ∈ selector_dict -> dict_get key selector_dict = Some value.
Proof.
  induction selector_dict as [|[k v] d IH]; simpl.
  - by intros _ ?%elem_of_nil.
  - intros [Hk Hd]%NoDup_cons. unfold str_eqb.
    intros [[= -> ->]|Hin]%elem_of_cons.
    + by rewrite bool_decide_eq_true_2.
    + rewrite bool_decide_eq_false_2; [by apply IH|].
      intros ->. apply Hk. by apply (list_elem_of_fmap_2 fst) in Hin.
Qed.

Lemma preferred_items_keys (selector_dict : Selector) (keys : list pystr) key :
  key ∈ (omap (preferred_item selector_dict) keys).*1
  <-> key ∈ keys
      /\ exists value, dict_get key selector_dict = Some value
                       /\ truthy value = true.
Proof.
  rewrite list_elem_of_fmap. split.
  - intros ([k v] & -> & (k' & Hk' & Hitem)%list_elem_of_omap).
    unfold preferred_item in Hitem.
    destruct (dict_get k' selector_dict) as [value|] eqn:Hget; [|done].
    destruct (truthy value) eqn:Hvalue; [|done].
    injection Hitem as <- <-. split; [done|]. by exists value.
  - intros (Hkey & value & Hget & Hvalue). exists (key, value).
    split; [done|]. apply list_elem_of_omap. exists key. split; [done|].
    unfold preferred_item. by rewrite Hget, Hvalue.
Qed.

Lemma selector_string_parts selector_dict :
  NoDup selector_dict.*1 ->
  _build_selector_string selector_dict
  = py_join (py ", ")
      (keyword_argument
         <$> (preferred_items selector_dict ++ other_items selector_dict)).
Proof.
  intros Hnodup. unfold _build_selector_string.
  destruct selector_dict as [|item d]; [done|].
  set (selector_dict := item :: d) in *.
  pose proof (preferred_loop selector_dict preferred_keys [] ∅) as Hfirst.
  cbv zeta in Hfirst.
  destruct (List.fold_left _ preferred_keys _) as [parts processed_keys].
  destruct Hfirst as [Hparts Hkeys]. cbn [fst snd] in Hparts, Hkeys.
  subst parts. cbn beta iota. rewrite other_loop, fmap_app, app_nil_l.
  do 3 f_equal. unfold other_items.
  apply List.filter_ext_in. intros [key value] Hin%list_elem_of_In. simpl.
  destruct (truthy value) eqn:Hvalue; [|by rewrite !andb_false_r].
  f_equal. f_equal. unfold str_in. apply bool_decide_ext.
  rewrite Hkeys, preferred_items_keys, elem_of_empty. split.
  - by intros [[]|[Hkey _]].
  - intros Hkey. right. split; [done|]. exists value. split; [|done].
    by apply dict_get_elem_of.
Qed.

Lemma dict_get_Some key value (selector_dict : Selector) :
  dict_get key selector_dict = Some value -> (key, value) ∈ selector_dict.
Proof.
  induction selector_dict as [|[k v] d IH]; simpl; [done|]. unfold str_eqb.
  case_bool_decide as Hk.
  - intros [= ->]. subst k. by left.
  - intros Hget. right. by apply IH.
Qed.

Lemma truthy_true (s : pystr) : truthy s = true <-> s <> [].
Proof. by destruct s. Qed.

Lemma preferred_items_sublist (selector_dict : Selector) (keys : list pystr) :
  sublist (omap (preferred_item selector_dict) keys).*1 keys.
Proof.
  induction keys as [|k keys IH]; simpl; [done|].
  unfold preferred_item at 1.
  destruct (dict_get k selector_dict) as [value|]; [|by apply sublist_cons].
  destruct (truthy value); [|by apply sublist_cons]. by apply sublist_skip.
Qed.

(** X5. The selector string of a dict (a list of items with distinct
    keys): the keyword arguments [key=repr(value)] of the items under the
    preferred keys, in the order resourceId, text, description, className,
    then those of the other items in the order of the dict, joined by a
    comma and a space. An item with an empty value is left out and every
    other item is there once, so the order in which the preferred keys were
    put into the dict makes no difference. *)
Theorem selector_string_items selector_dict :
  NoDup selector_dict.*1 ->
  let items := preferred_items selector_dict ++ other_items selector_dict in
  _build_selector_string selector_dict
  = py_join (py ", ") (keyword_argument <$> items)
  /\ (forall key value,
        (key, value) ∈ items <-> (key, value) ∈ selector_dict /\ value <> [])
  /\ NoDup items.*1.
Proof.
  intros Hnodup items. split; [by apply selector_string_parts|].
  assert (Hpreferred : forall key value,
             (key, value) ∈ preferred_items selector_dict
             <-> key ∈ preferred_keys /\ (key, value) ∈ selector_dict
                 /\ value <> []).
  { intros key value. unfold preferred_items.
    rewrite list_elem_of_omap, <- truthy_true. split.
    - intros (k & Hk & Hitem). unfold preferred_item in Hitem.
      destruct (dict_get k selector_dict) as [v|] eqn:Hget; [|done].
      destruct (truthy v) eqn:Hv; [|done]. injection Hitem as -> ->.
      by apply dict_get_Some in Hget.
    - intros (Hkey & Hin & Hvalue). exists key. split; [done|].
      unfold preferred_item.
      by rewrite (dict_get_elem_of _ _ _ Hnodup Hin), Hvalue. }
  assert (Hother : forall key value,
             (key, value) ∈ other_items selector_dict
             <-> (key ∉ preferred_keys) /\ (key, value) ∈ selector_dict
                 /\ value <> []).
  { intros key value. unfold other_items, str_in.
    rewrite elem_of_filter, andb_true_iff, negb_true_iff,
      bool_decide_eq_false, <- truthy_true. simpl. tauto. }
  split.
  - intros key value. unfold items.
    rewrite elem_of_app, Hpreferred, Hother.
    destruct (decide (key ∈ preferred_keys)); tauto.
  - unfold items. rewrite fmap_app. apply NoDup_app. repeat split.
    + apply (sublist_NoDup _ preferred_keys);
        [by apply NoDup_ListNoDup; repeat constructor; simpl; intuition
              discriminate|].
      apply preferred_items_sublist.
    + intros key ([k v] & -> & Hin%Hpreferred)%list_elem_of_fmap
                 ([k' v'] & Hk & Hin'%Hother)%list_elem_of_fmap.
      simpl in Hk. subst k'. tauto.
    + apply (sublist_NoDup _ (selector_dict.*1)); [done|].
      apply fmap_sublist, filter_sublist.
Qed.

End SelectorString.

(** A dict filled with the class name first: the text comes first in the
    string. *)
Lemma selector_string_items_witness :
  let selector_dict :=
    [(py "className", py "android.widget.Button"); (py "text", py "Next")] in
  NoDup selector_dict.*1
  /\ @_build_selector_string ascii_builtins selector_dict
     = py "text='Next', className='android.widget.Button'".
Proof.
  intros selector_dict.
  assert (Hnodup : NoDup selector_dict.*1)
    by (apply (bool_decide_unpack _); vm_compute; reflexivity).
  refine (conj Hnodup _).
  rewrite (proj1 (@selector_string_items ascii_builtins selector_dict Hnodup)).
  vm_compute. reflexivity.
Defined.

(** The selector string of the dict that lines 121-132 build. *)
Lemma selector_string_construct `{Builtins} res_id text desc class_name :
  let class_argument :=
    if truthy class_name
    then py ", className=" ++ py_repr class_name else py "" in
  _build_selector_string (construct_selector res_id text desc class_name)
  = (if truthy res_id then py "resourceId=" ++ py_repr res_id
     else if truthy text then py "text=" ++ py_repr text ++ class_argument
     else if truthy desc
     then py "description=" ++ py_repr desc ++ class_argument
     else if truthy class_name then py "className=" ++ py_repr class_name
     else py "").
Proof.
  unfold construct_selector.
  destruct res_id as [|c1 s1], text as [|c2 s2], desc as [|c3 s3],
    class_name as [|c4 s4];
    cbn [truthy]; cbv zeta; rewrite ?app_nil_r; reflexivity.
Qed.

(** X6. The selector an emitted statement carries for a catalog entry:
    the resource id alone when the entry has one; else the text, else the
    description, each followed by the class name when there is one; else
    the class name. It is empty, so that the statement is [d()...] and
    addresses no node in particular, exactly when the entry has none of the
    four. *)
Theorem emitted_selector `{Builtins} device cat e :
  get_screen_elements device = Returned cat ->
  e ∈ cat ->
  let class_argument :=
    if truthy (Element.class_name e)
    then py ", className=" ++ py_repr (Element.class_name e) else py "" in
  _build_selector_string (Element.selector e)
  = (if truthy (Element.resource_id e)
     then py "resourceId=" ++ py_repr (Element.resource_id e)
     else if truthy (Element.text e)
     then py "text=" ++ py_repr (Element.text e) ++ class_argument
     else if truthy (Element.description e)
     then py "description=" ++ py_repr (Element.description e)
            ++ class_argument
     else if truthy (Element.class_name e)
     then py "className=" ++ py_repr (Element.class_name e)
     else py "")
  /\ (_build_selector_string (Element.selector e) = py ""
      <-> Element.resource_id e = [] /\ Element.text e = []
          /\ Element.description e = [] /\ Element.class_name e = []).
Proof.
  intros Hrun He class_argument. subst class_argument.
  destruct (in_catalog_element_data _ _ _ Hrun He) as [i ->].
  cbn [element_data Element.selector Element.resource_id Element.text
       Element.description Element.class_name].
  pose proof (selector_string_construct (Info.resourceId i) (Info.text i)
                (Info.contentDescription i) (Info.className i)) as Hstring.
  cbv zeta in Hstring. split; [exact Hstring|]. rewrite Hstring.
  destruct (Info.resourceId i), (Info.text i), (Info.contentDescription i),
    (Info.className i); cbn [truthy];
    (split;
     [intros Hnil; simpl in Hnil; try discriminate Hnil; done
     |intros (? & ? & ? & ?); try discriminate; done]).
Qed.

(** The list of the sample screen has a description and a class name
    only. *)
Lemma emitted_selector_witness :
  let device :=
    device_with
      [handle next_button; handle name_field; handle settings_list] [] in
  let e := element_data settings_list in
  get_screen_elements device = Returned sample_catalog
  /\ e ∈ sample_catalog
  /\ @_build_selector_string ascii_builtins (Element.selector e)
     = py "description='Settings', className='android.widget.ListView'".
Proof.
  intros device e.
  assert (Hcat : get_screen_elements device = Returned sample_catalog)
    by (vm_compute; reflexivity).
  assert (He : e ∈ sample_catalog) by (right; right; by left).
  refine (conj Hcat (conj He _)).
  rewrite (proj1 (@emitted_selector ascii_builtins device sample_catalog e
                    Hcat He)).
  vm_compute. reflexivity.
Defined.

(** ** The emitted function, line by line *)

Lemma strip_indented body :
  body <> [] -> is_space (List.hd 0%N body) = false ->
  truthy (py_strip (py "    " ++ body)) = true.
Proof.
  intros Hne Hhd. unfold py_strip.
  change (lstrip is_space (py "    " ++ body)) with (lstrip is_space body).
  rewrite (lstrip_fixed _ body 0%N) by done.
  destruct (rstrip_hd is_space body 0%N Hhd Hne) as [Hkept _].
  by destruct (rstrip is_space body).
Qed.

(** The guard of line 524 holds for every action. *)
Lemma action_lines_pair `{Builtins} action :
  action_lines action = [code_line action; delay_line].
Proof.
  unfold action_lines.
  assert (Hguard : truthy (py_strip (code_line action)) = true).
  { destruct action; unfold code_line; by apply strip_indented. }
  by rewrite Hguard.
Qed.

Lemma routine_closed_form `{Builtins} screen_name recorded_actions :
  generate_python_function screen_name recorded_actions
  = py_join [0x0A%N]
      (header_lines screen_name
       ++ match recorded_actions with
          | [] => [py "    pass"]
          | _ :: _ =>
              flat_map (fun action => [code_line action; delay_line])
                recorded_actions
          end).
Proof.
  unfold generate_python_function.
  destruct recorded_actions as [|action rest]; [done|].
  rewrite (List.flat_map_ext action_lines
             (fun action => [code_line action; delay_line]))
    by (intros a; apply action_lines_pair).
  fold (header_lines screen_name).
  rewrite List.length_app. by cbn [flat_map List.length header_lines].
Qed.

(** X7. The emitted function is its three opening lines followed by
    [pass] when no action was recorded, and otherwise by one statement and
    one delay line for each action, in the order of the list. The guard of
    line 524 holds for every action, so no action is ever left out, and
    the second [pass] of lines 528-529 is never written. *)
Theorem routine_body `{Builtins} screen_name recorded_actions :
  (forall action, action_lines action = [code_line action; delay_line])
  /\ generate_python_function screen_name [] 
     = py_join [0x0A%N] (header_lines screen_name ++ [py "    pass"])
  /\ (recorded_actions <> [] ->
      generate_python_function screen_name recorded_actions
      = py_join [0x0A%N]
          (header_lines screen_name
           ++ flat_map (fun action => [code_line action; delay_line])
                recorded_actions)).
Proof.
  split; [apply action_lines_pair|]. split; [apply routine_closed_form|].
  intros Hne. rewrite routine_closed_form.
  by destruct recorded_actions.
Qed.

(** A session with one click. *)
Lemma routine_body_witness :
  let recorded_actions :=
    [click [(py "resourceId", py "btn_next")]
       (py "Click on 'Next' (android.widget.Button)")] in
  recorded_actions <> []
  /\ @generate_python_function ascii_builtins (py "next_screen")
       recorded_actions
     = py_join [0x0A%N]
         (header_lines (py "next_screen")
          ++ [py "    d(resourceId='btn_next').click()"; delay_line]).
Proof.
  intros recorded_actions.
  assert (Hne : recorded_actions <> []) by discriminate.
  refine (conj Hne _).
  exact (proj2 (proj2 (@routine_body ascii_builtins (py "next_screen")
                         recorded_actions)) Hne).
Defined.

(** ** No line break inside a line *)

Lemma single_line_app a b :
  single_line (a ++ b) = single_line a && single_line b.
Proof. unfold single_line. by rewrite List.existsb_app, negb_orb. Qed.

Lemma single_line_cons c s :
  single_line (c :: s) = negb (0x0A =? c)%N && single_line s.
Proof. unfold single_line. simpl. by rewrite negb_orb. Qed.

Lemma hex_digits_single_line n v : single_line (hex_digits n v) = true.
Proof.
  revert v. induction n as [|n IH]; intros v; simpl; [done|].
  rewrite single_line_app, IH, single_line_cons.
  change (single_line []) with true. rewrite andb_true_r, andb_true_l.
  unfold hex_digit. apply negb_true_iff, N.eqb_neq.
  generalize (v mod 16)%N. intros d. destruct (N.ltb_spec d 10); lia.
Qed.

Lemma repr_char_single_line `{Builtins} quote c :
  quote <> 0x0A%N -> single_line (repr_char quote c) = true.
Proof.
  intros Hquote. unfold repr_char.
  destruct (N.eqb_spec c 0x0A) as [->|Hc].
  - destruct (N.eqb_spec 0x0A quote) as [Heq|_]; [by subst quote|].
    reflexivity.
  - assert (Hline : single_line [c] = true).
    { rewrite single_line_cons. apply andb_true_intro. split; [|done].
      apply negb_true_iff, N.eqb_neq. congruence. }
    repeat match goal with
      | |- context [if ?b then _ else _] => destruct b
      end;
      rewrite ?single_line_app, ?hex_digits_single_line, ?Hline; done.
Qed.

Lemma py_repr_single_line `{Builtins} s : single_line (py_repr s) = true.
Proof.
  unfold py_repr.
  assert (Hbody : forall quote,
             quote <> 0x0A%N ->
             single_line (flat_map (repr_char quote) s) = true).
  { intros quote Hquote. induction s as [|c s IH]; simpl; [done|].
    by rewrite single_line_app, repr_char_single_line, IH. }
  destruct (_ && _); rewrite single_line_cons, single_line_app, Hbody;
    done.
Qed.

Lemma py_split_single_line sep s :
  List.existsb (N.eqb sep) s = false -> py_split sep s = [s].
Proof.
  induction s as [|c s IH]; simpl; [done|].
  intros [Hc Hs]%orb_false_elim. rewrite N.eqb_sym, Hc. by rewrite IH.
Qed.

Lemma py_split_app sep p s :
  List.existsb (N.eqb sep) p = false ->
  py_split sep (p ++ sep :: s) = p :: py_split sep s.
Proof.
  induction p as [|c p IH]; simpl.
  - intros _. by rewrite N.eqb_refl.
  - intros [Hc Hp]%orb_false_elim. rewrite N.eqb_sym, Hc. by rewrite IH.
Qed.

(** [split] undoes [join] on lines without a line break. *)
Lemma py_split_join parts :
  parts <> [] -> Forall (fun p => single_line p = true) parts ->
  py_split 0x0A (py_join [0x0A%N] parts) = parts.
Proof.
  intros Hne Hparts. induction Hparts as [|p parts Hp _ IH]; [done|].
  apply negb_true_iff in Hp.
  destruct parts as [|q parts].
  - by apply py_split_single_line.
  - change (py_join [0x0A%N] (p :: q :: parts))
      with (p ++ 0x0A%N :: py_join [0x0A%N] (q :: parts)).
    rewrite py_split_app by done. by rewrite IH.
Qed.

Lemma selector_construct_single_line `{Builtins} res_id text desc class_name :
  single_line
    (_build_selector_string (construct_selector res_id text desc class_name))
  = true.
Proof.
  rewrite selector_string_construct.
  destruct (truthy res_id), (truthy text), (truthy desc), (truthy class_name);
    rewrite ?single_line_app, ?py_repr_single_line; reflexivity.
Qed.

Lemma recorded_single_line `{Builtins} elements action :
  (forall el, el ∈ elements -> exists i, el = element_data i) ->
  recorded_for elements action ->
  single_line (code_line action) = true.
Proof.
  intros Hentries (el & Hel & Haction).
  destruct (Hentries el Hel) as [i ->].
  assert (Hselector :
            single_line
              (_build_selector_string (Element.selector (element_data i)))
            = true) by apply selector_construct_single_line.
  assert (Hdirection : forall direction,
             direction ∈ [py "up"; py "down"; py "left"; py "right"] ->
             single_line direction = true).
  { intros direction Hin. rewrite !elem_of_cons, elem_of_nil in Hin.
    by destruct Hin as [->|[->|[->|[->|[]]]]]. }
  destruct action; cbv zeta in Haction; unfold code_line.
  - destruct Haction as [-> _].
    by rewrite !single_line_app, Hselector.
  - destruct Haction as (_ & -> & _).
    by rewrite !single_line_app, Hselector, py_repr_single_line.
  - destruct Haction as (_ & -> & Hin & _).
    rewrite !single_line_app, Hselector.
    by repeat match goal with
         | |- context [if ?b then _ else _] => destruct b
         end.
  - destruct Haction as (_ & Hin & _).
    by rewrite !single_line_app, (Hdirection _ Hin).
  - destruct Haction as (_ & -> & _).
    by rewrite !single_line_app, Hselector, py_repr_single_line.
Qed.

Lemma screen_name_single_line device elements :
  single_line (generate_screen_name device elements) = true.
Proof.
  unfold generate_screen_name. cbv zeta.
  match goal with
  | |- context [normalize_to_snake_case ?t] =>
      destruct (normalize_normal_form t) as (_ & Hsnake & _);
      generalize dependent (normalize_to_snake_case t)
  end.
  intros name Hsnake. unfold snake_case in Hsnake.
  apply andb_prop in Hsnake as [[[Hident _]%andb_prop _]%andb_prop _].
  induction name as [|c name IH]; [done|]. simpl in Hident.
  apply andb_prop in Hident as [Hc Hname].
  rewrite single_line_cons, IH by done. rewrite andb_true_r.
  apply negb_true_iff, N.eqb_neq. intros <-. discriminate Hc.
Qed.

Lemma header_single_line screen_name :
  single_line screen_name = true ->
  Forall (fun line => single_line line = true) (header_lines screen_name).
Proof.
  intros Hname. unfold header_lines.
  repeat constructor; by rewrite !single_line_app, Hname.
Qed.

(** X8. From the screen to the text: for a catalog the builder returned,
    the name the resolver gives it and the actions the recorder returned
    for it, the emitted text splits at its line breaks into the three
    opening lines and, action by action, one statement and one delay line
    ([pass] when there is no action). No label of the screen and nothing the
    operator typed puts a line break into a statement. *)
Theorem routine_lines `{Builtins} device cat inputs recorded_actions rest :
  get_screen_elements device = Returned cat ->
  build_actions_for_screen cat inputs = Returned (recorded_actions, rest) ->
  let screen_name := generate_screen_name device cat in
  py_split 0x0A (generate_python_function screen_name recorded_actions)
  = header_lines screen_name
    ++ match recorded_actions with
       | [] => [py "    pass"]
       | _ :: _ =>
           flat_map (fun action => [code_line action; delay_line])
             recorded_actions
       end.
Proof.
  intros Hcat Hrun screen_name. rewrite routine_closed_form.
  apply py_split_join; [done|]. apply Forall_app. split.
  - apply header_single_line, screen_name_single_line.
  - apply build_actions_recorded in Hrun.
    destruct recorded_actions as [|a acts]; [by repeat constructor|].
    apply Forall_flat_map. eapply Forall_impl; [exact Hrun|].
    intros action Haction. cbv beta. repeat constructor.
    eapply recorded_single_line; [|exact Haction].
    intros el Hel. by apply (in_catalog_element_data device cat).
Qed.

(** The sample session on the sample screen: five lines behind the
    opening ones. *)
Lemma routine_lines_witness :
  let device :=
    device_with
      [handle next_button; handle name_field; handle settings_list] [] in
  get_screen_elements device = Returned sample_catalog
  /\ @build_actions_for_screen ascii_builtins sample_catalog sample_lines
     = Returned (sample_actions, [py "no"])
  /\ py_split 0x0A
       (@generate_python_function ascii_builtins
          (generate_screen_name device sample_catalog) sample_actions)
     = header_lines (py "mainactivity")
       ++ [ py "    d(resourceId='btn_next').click()";
            delay_line;
            py "    d(description='Settings', className='android.widget.ListView').scroll.to(text='Wi-Fi')";
            delay_line ].
Proof.
  intros device.
  assert (Hcat : get_screen_elements device = Returned sample_catalog)
    by (vm_compute; reflexivity).
  assert (Hrun : @build_actions_for_screen ascii_builtins sample_catalog
                   sample_lines = Returned (sample_actions, [py "no"]))
    by (vm_compute; reflexivity).
  refine (conj Hcat (conj Hrun _)).
  rewrite (@routine_lines ascii_builtins device sample_catalog sample_lines
             sample_actions [py "no"] Hcat Hrun).
  vm_compute. reflexivity.
Defined.

(** ** Directions *)

(** X9. A scroll or a swipe of a returned action list has one of the four
    directions [up], [down], [left] and [right]: the statement emitted for
    a scroll is the [fling] in that direction, never the [forward] of line
    509, and the one emitted for a swipe passes that direction to
    [swipe_ext]. *)
Theorem recorded_directions `{Builtins} elements inputs final rest :
  build_actions_for_screen elements inputs = Returned (final, rest) ->
  (forall element_selector direction description,
     scroll element_selector direction description ∈ final ->
     direction ∈ [py "up"; py "down"; py "left"; py "right"]
     /\ code_line (scroll element_selector direction description)
        = py "    d(" ++ _build_selector_string element_selector
            ++ py ").fling." ++ direction ++ py "()")
  /\ (forall direction description,
        swipe direction description ∈ final ->
        direction ∈ [py "up"; py "down"; py "left"; py "right"]
        /\ description = py "Swipe screen " ++ direction
        /\ code_line (swipe direction description)
           = py "    d.swipe_ext(" ++ [dquote] ++ direction ++ [dquote]
               ++ py ")").
Proof.
  intros Hrun. apply build_actions_recorded in Hrun.
  rewrite Forall_forall in Hrun. split.
  - intros element_selector direction description Hin.
    apply Hrun in Hin as (el & _ & _ & _ & Hdirection & _).
    split; [done|]. unfold code_line.
    rewrite !elem_of_cons, elem_of_nil in Hdirection.
    by destruct Hdirection as [->|[->|[->|[->|[]]]]].
  - intros direction description Hin.
    apply Hrun in Hin as (el & _ & _ & Hdirection & Hdescription).
    done.
Qed.

(** On the sample screen: the list is scrolled up; the button cannot be
    scrolled, and the direction [sideways] is none, so the screen is swiped
    down. *)
Lemma recorded_directions_witness :
  let final :=
    [ scroll [(py "description", py "Settings");
              (py "className", py "android.widget.ListView")] (py "up")
        (py "Scroll Desc:'Settings' (android.widget.ListView) up");
      swipe (py "down") (py "Swipe screen down") ] in
  @build_actions_for_screen ascii_builtins sample_catalog scroll_lines
  = Returned (final, [])
  /\ @code_line ascii_builtins
       (scroll [(py "description", py "Settings");
                (py "className", py "android.widget.ListView")] (py "up")
          (py "Scroll Desc:'Settings' (android.widget.ListView) up"))
     = py "    d(description='Settings', className='android.widget.ListView').fling.up()".
Proof.
  intros final.
  assert (Hrun : @build_actions_for_screen ascii_builtins sample_catalog
                   scroll_lines = Returned (final, []))
    by (vm_compute; reflexivity).
  refine (conj Hrun _).
  assert (Hin : scroll [(py "description", py "Settings");
                        (py "className", py "android.widget.ListView")]
                  (py "up")
                  (py "Scroll Desc:'Settings' (android.widget.ListView) up")
                ∈ final) by (by left).
  rewrite (proj2 (proj1 (@recorded_directions ascii_builtins sample_catalog
                           scroll_lines final [] Hrun) _ _ _ Hin)).
  vm_compute. reflexivity.
Defined.

(** ** Where the screen name comes from *)

Lemma starts_with_contains pre sub s :
  starts_with (pre ++ sub) s = true -> contains sub s = true.
Proof.
  revert s. induction pre as [|a pre IH]; intros s; simpl.
  - intros Hsub. destruct s; simpl; by rewrite Hsub.
  - destruct s as [|b s]; [done|]. intros [_ Hrest]%andb_prop.
    simpl. rewrite (IH _ Hrest). apply orb_true_r.
Qed.

Lemma contains_suffix pre sub s :
  contains (pre ++ sub) s = true -> contains sub s = true.
Proof.
  induction s as [|b s IH].
  - simpl. rewrite orb_false_r. apply starts_with_contains.
  - cbn [contains]. intros [Hhere|Hlater]%orb_prop.
    + by apply starts_with_contains in Hhere.
    + rewrite (IH Hlater). apply orb_true_r.
Qed.

(** The second and the third disjunct of line 185 add nothing to the
    first. *)
Lemma title_test res_id :
  contains (py "title") res_id || contains (py "action_bar_title") res_id
  || contains (py "toolbar_title") res_id
  = contains (py "title") res_id.
Proof.
  destruct (contains (py "title") res_id) eqn:Htitle; [done|]. simpl.
  destruct (contains (py "action_bar_title") res_id) eqn:Hbar.
  { apply (contains_suffix (py "action_bar_") (py "title")) in Hbar.
    congruence. }
  destruct (contains (py "toolbar_title") res_id) eqn:Htool; [|done].
  apply (contains_suffix (py "toolbar_") (py "title")) in Htool. congruence.
Qed.

Lemma title_heuristic_find text_views :
  Forall (fun tv => truthy (Element.text tv) = true) text_views ->
  title_heuristic text_views (py "")
  = match List.find title_like text_views with
    | Some tv => Element.text tv
    | None => py ""
    end.
Proof.
  induction 1 as [|tv rest Htv _ IH]; simpl; [done|].
  rewrite title_test. fold (title_like tv).
  destruct (title_like tv); [|exact IH]. by rewrite Htv.
Qed.

Lemma topmost_heuristic_head text_views :
  Forall (fun tv => truthy (Element.text tv) = true) text_views ->
  topmost_heuristic text_views (py "")
  = match text_views with
    | tv :: _ => Element.text tv
    | [] => py ""
    end.
Proof. destruct 1 as [|tv rest Htv _]; simpl; [done|]. by rewrite Htv. Qed.

Lemma insert_by_key_perm el sorted : insert_by_key el sorted ≡ₚ el :: sorted.
Proof.
  induction sorted as [|y rest IH]; simpl; [done|].
  destruct (key_ltb _ _); [done|]. rewrite IH. apply Permutation_swap.
Qed.

Lemma sort_by_key_perm l : sort_by_key l ≡ₚ l.
Proof.
  unfold sort_by_key. rewrite <- (app_nil_r l) at 2.
  generalize (@nil Element.t). induction l as [|x l IH]; intros acc; simpl.
  - done.
  - rewrite IH, insert_by_key_perm. by rewrite Permutation_middle.
Qed.

Lemma key_leb_trans a b c :
  key_leb a b = true -> key_leb b c = true -> key_leb a c = true.
Proof. destruct a, b, c. intros Hab Hbc. key_order. Qed.

Lemma key_ltb_leb a b : key_ltb a b = true -> key_leb a b = true.
Proof. destruct a, b. intros Hab. key_order. Qed.

Lemma insert_by_key_sorted el sorted :
  sorted_by_key sorted -> sorted_by_key (insert_by_key el sorted).
Proof.
  induction sorted as [|y rest IH]; simpl.
  - by repeat constructor.
  - intros [Hy Hrest].
    destruct (key_ltb (sort_key el) (sort_key y)) eqn:Hlt.
    + apply key_ltb_leb in Hlt. simpl. split; [|done].
      constructor; [done|]. eapply Forall_impl; [exact Hy|].
      intros z Hz. by eapply key_leb_trans.
    + simpl. split; [|by apply IH]. rewrite insert_by_key_perm.
      constructor; [|done]. unfold key_leb. by rewrite Hlt.
Qed.

Lemma sort_by_key_sorted l : sorted_by_key (sort_by_key l).
Proof.
  unfold sort_by_key.
  assert (Hnil : sorted_by_key []) by done.
  revert Hnil. generalize (@nil Element.t).
  induction l as [|x l IH]; intros acc Hacc; simpl; [done|].
  by apply IH, insert_by_key_sorted.
Qed.

Lemma text_views_truthy elements :
  Forall (fun tv => truthy (Element.text tv) = true)
    (sort_by_key (text_views elements)).
Proof.
  rewrite sort_by_key_perm. apply Forall_forall. intros tv Htv.
  apply elem_of_filter in Htv as [_ Htv]. by apply andb_prop in Htv as [_ ?].
Qed.

(** The candidate of [generate_screen_name], heuristic by heuristic. *)
Lemma screen_name_candidate device elements :
  generate_screen_name device elements
  = match List.find title_like (sort_by_key (text_views elements)) with
    | Some tv => normalize_to_snake_case (Element.text tv)
    | None =>
        match sort_by_key (text_views elements) with
        | tv :: _ => normalize_to_snake_case (Element.text tv)
        | [] =>
            match app_current device with
            | Returned activity_name => normalize_to_snake_case activity_name
            | Raised => py "unnamed_screen"
            end
        end
    end.
Proof.
  unfold generate_screen_name. cbv zeta. fold (text_views elements).
  pose proof (text_views_truthy elements) as Htruthy.
  rewrite title_heuristic_find by done.
  destruct (List.find title_like _) as [tv|] eqn:Hfind.
  - apply List.find_some in Hfind as [Hin%list_elem_of_In _].
    rewrite Forall_forall in Htruthy. apply Htruthy in Hin.
    by destruct (Element.text tv).
  - cbn [truthy negb py List.map list_ascii_of_string].
    rewrite topmost_heuristic_head by done.
    destruct (sort_by_key (text_views elements)) as [|tv rest].
    + cbn [truthy negb]. destruct (app_current device) as [[|c name]|]; done.
    + apply Forall_cons in Htruthy as [Htv _].
      by destruct (Element.text tv).
Qed.

(** X10. The device is asked for the current activity only when the
    catalog has no text label (a [TextView] with a text): with a label, the
    name is the same on every device; without one, it is the normalized
    activity name, and [unnamed_screen] when the call raises (or, by the
    normalization, gives an empty name). *)
Theorem screen_name_fallbacks device elements :
  (text_views elements <> [] ->
   forall device',
     generate_screen_name device' elements
     = generate_screen_name device elements)
  /\ (text_views elements = [] ->
      generate_screen_name device elements
      = match app_current device with
        | Returned activity_name => normalize_to_snake_case activity_name
        | Raised => py "unnamed_screen"
        end).
Proof.
  split.
  - intros Hne device'. rewrite !screen_name_candidate.
    destruct (List.find title_like _); [done|].
    destruct (sort_by_key (text_views elements)) as [|tv rest] eqn:Hsorted;
      [|done].
    pose proof (sort_by_key_perm (text_views elements)) as Hperm.
    rewrite Hsorted in Hperm. by apply Permutation_nil_l in Hperm.
  - intros Hnil. rewrite screen_name_candidate, Hnil. reflexivity.
Qed.

(** The sample catalog has no text label: its name is the activity, and
    [unnamed_screen] on a device that does not tell. *)
Lemma screen_name_fallbacks_witness :
  text_views sample_catalog = []
  /\ generate_screen_name (device_with [] []) sample_catalog
     = py "mainactivity"
  /\ generate_screen_name silent_device sample_catalog = py "unnamed_screen".
Proof.
  assert (Hnil : text_views sample_catalog = []) by reflexivity.
  refine (conj Hnil (conj _ _)).
  - rewrite (proj2 (screen_name_fallbacks (device_with [] []) sample_catalog)
               Hnil).
    vm_compute. reflexivity.
  - exact (proj2 (screen_name_fallbacks silent_device sample_catalog) Hnil).
Defined.

Lemma key_leb_refl a : key_leb a a = true.
Proof. destruct a. key_order. Qed.

Lemma find_sorted_first f l tv :
  sorted_by_key l -> List.find f l = Some tv ->
  forall other,
    other ∈ l -> f other = true ->
    key_leb (sort_key tv) (sort_key other) = true.
Proof.
  induction l as [|x rest IH]; simpl; [done|]. intros [Hx Hrest].
  destruct (f x) eqn:Hfx.
  - intros [= <-] other [->|Hin]%elem_of_cons _; [apply key_leb_refl|].
    rewrite Forall_forall in Hx. by apply Hx.
  - intros Hfind other [->|Hin]%elem_of_cons Hother; [congruence|].
    by apply IH.
Qed.

(** X11. Which label names the screen. With a text label in the catalog,
    the name is the normalized text of one of them: of a label whose
    resource id, in lower case, contains [title], if there is one, and then
    of one that no other such label precedes in the order of the top, then
    the left edge (a label without bounds comes last); otherwise of a label
    that no other label precedes in that order. *)
Theorem screen_name_label device elements :
  text_views elements <> [] ->
  exists tv,
    tv ∈ text_views elements
    /\ generate_screen_name device elements
       = normalize_to_snake_case (Element.text tv)
    /\ if List.existsb title_like (text_views elements)
       then title_like tv = true
            /\ forall other,
                 other ∈ text_views elements -> title_like other = true ->
                 key_leb (sort_key tv) (sort_key other) = true
       else forall other,
              other ∈ text_views elements ->
              key_leb (sort_key tv) (sort_key other) = true.
Proof.
  intros Hne. rewrite screen_name_candidate.
  pose proof (sort_by_key_perm (text_views elements)) as Hperm.
  pose proof (sort_by_key_sorted (text_views elements)) as Hsorted.
  destruct (List.find title_like _) as [tv|] eqn:Hfind.
  - pose proof (find_sorted_first _ _ _ Hsorted Hfind) as Hfirst.
    apply List.find_some in Hfind as [Hin%list_elem_of_In Htitle].
    rewrite Hperm in Hin. exists tv. split; [done|]. split; [done|].
    assert (Hex : List.existsb title_like (text_views elements) = true).
    { apply List.existsb_exists. exists tv. by rewrite <- list_elem_of_In. }
    rewrite Hex. split; [done|]. intros other Hother.
    apply Hfirst. by rewrite Hperm.
  - assert (Hex : List.existsb title_like (text_views elements) = false).
    { apply not_true_is_false.
      intros (x & Hx%list_elem_of_In & Htitle)%List.existsb_exists.
      rewrite <- Hperm in Hx. apply list_elem_of_In in Hx.
      by rewrite (List.find_none _ _ Hfind _ Hx) in Htitle. }
    rewrite Hex.
    destruct (sort_by_key (text_views elements)) as [|tv rest].
    { by apply Permutation_nil_l in Hperm. }
    exists tv. split; [rewrite <- Hperm; by left|]. split; [done|].
    intros other Hother. rewrite <- Hperm in Hother.
    destruct Hsorted as [Hfirst _]. rewrite Forall_forall in Hfirst.
    apply elem_of_cons in Hother as [->|Hin]; [apply key_leb_refl|].
    by apply Hfirst.
Qed.

(** The greeting is above the toolbar title, and the title names the
    screen. *)
Lemma screen_name_label_witness :
  text_views labelled_screen <> []
  /\ List.existsb title_like (text_views labelled_screen) = true
  /\ generate_screen_name silent_device labelled_screen = py "wifi_settings"
  /\ exists tv,
       tv ∈ text_views labelled_screen
       /\ generate_screen_name silent_device labelled_screen
          = normalize_to_snake_case (Element.text tv)
       /\ title_like tv = true.
Proof.
  assert (Hne : text_views labelled_screen <> []) by discriminate.
  assert (Hex : List.existsb title_like (text_views labelled_screen) = true)
    by reflexivity.
  refine (conj Hne (conj Hex (conj _ _))); [vm_compute; reflexivity|].
  destruct (screen_name_label silent_device labelled_screen Hne)
    as (tv & Hin & Hname & Hrule).
  rewrite Hex in Hrule. exists tv.
  exact (conj Hin (conj Hname (proj1 Hrule))).
Defined.

(** ** Activity names *)

Lemma py_split_parts sep s :
  py_split sep s <> []
  /\ Forall (fun part => List.existsb (N.eqb sep) part = false)
       (py_split sep s).
Proof.
  induction s as [|c s [Hne IH]]; simpl; [by repeat constructor|].
  destruct (N.eqb_spec c sep) as [->|Hc]; [by repeat constructor|].
  destruct (py_split sep s) as [|part parts]; [done|].
  apply Forall_cons in IH as [Hpart Hparts]. split; [done|].
  constructor; [|done]. simpl. rewrite Hpart, orb_false_r.
  apply N.eqb_neq. congruence.
Qed.

Lemma Forall_last {A} (P : A -> Prop) l d :
  Forall P l -> l <> [] -> P (List.last l d).
Proof.
  induction 1 as [|x l Hx Hl IH]; [done|]. intros _.
  destruct l as [|y l]; [done|]. by apply IH.
Qed.

Lemma py_count_existsb c s :
  (0 < py_count c s)%nat -> List.existsb (N.eqb c) s = true.
Proof.
  unfold py_count. induction s as [|x s IH]; simpl.
  - intros Hcount. exfalso. lia.
  - destruct (c =? x)%N; [done|]. exact IH.
Qed.

(** X12. Of a name with more than one dot only the part behind the last
    dot counts: a full activity name gets the name of its class. *)
Theorem normalize_last_segment text :
  (1 < py_count dot text)%nat ->
  normalize_to_snake_case text
  = normalize_to_snake_case (last_item (py_split dot text)).
Proof.
  intros Hcount.
  assert (Hdot : List.existsb (N.eqb dot) text = true)
    by (apply py_count_existsb; lia).
  destruct (py_split_parts dot text) as [Hne Hparts].
  pose proof (Forall_last _ _ [] Hparts Hne) as Hlast.
  fold (last_item (py_split dot text)) in Hlast.
  assert (Hstripped : stripped text
                      = stripped (last_item (py_split dot text))).
  { unfold stripped at 1 2.
    by rewrite Hdot, (proj2 (Nat.ltb_lt _ _) Hcount), Hlast. }
  rewrite !normalize_unfold, <- Hstripped.
  destruct text as [|c text]; [discriminate Hdot|]. cbn [truthy negb].
  destruct (last_item _) as [|x segment]; [|done].
  by rewrite Hstripped.
Qed.

Lemma normalize_last_segment_witness :
  (1 < py_count dot (py "com.example.app.MainActivity"))%nat
  /\ last_item (py_split dot (py "com.example.app.MainActivity"))
     = py "MainActivity"
  /\ normalize_to_snake_case (py "com.example.app.MainActivity")
     = normalize_to_snake_case (py "MainActivity").
Proof.
  assert (Hcount : (1 < py_count dot (py "com.example.app.MainActivity"))%nat)
    by (vm_compute; lia).
  refine (conj Hcount (conj eq_refl _)).
  exact (normalize_last_segment (py "com.example.app.MainActivity") Hcount).
Defined.

(** ** More on the recorder *)

Lemma while_true_more `{Builtins} fuel fuel' elements recorded_actions inputs
  outcome :
  while_true fuel elements recorded_actions inputs = Some outcome ->
  (fuel <= fuel')%nat ->
  while_true fuel' elements recorded_actions inputs = Some outcome.
Proof.
  revert fuel' recorded_actions inputs.
  induction fuel as [|fuel IH]; intros fuel' recorded_actions inputs;
    simpl; [done|].
  intros Hrun Hfuel. destruct fuel' as [|fuel']; [lia|]. simpl.
  destruct (iteration elements recorded_actions inputs)
    as [[[|recorded_actions'] rest]|]; [done| |done].
  apply IH; [done|lia].
Qed.

(** X14. The loop of the recorder comes to an end. A pass that goes back
    to the top of the loop has read at least one line and has left the
    action list as it was or with one action more at its end; so on a
    console with finitely many lines the loop returns or fails at the end
    of the input, and its outcome is the same for every bound on the
    number of passes that exceeds the number of lines. *)
Theorem recorder_terminates `{Builtins} elements recorded_actions inputs :
  (forall recorded_actions' rest,
     iteration elements recorded_actions inputs
     = Returned (Continue recorded_actions', rest) ->
     (List.length rest < List.length inputs)%nat
     /\ (recorded_actions' = recorded_actions
         \/ exists action, recorded_actions' = recorded_actions ++ [action]))
  /\ exists outcome,
       forall fuel,
         (List.length inputs < fuel)%nat ->
         while_true fuel elements recorded_actions inputs = Some outcome.
Proof.
  split.
  - intros recorded_actions' rest Hpass.
    apply iteration_continue in Hpass as [Hlen [->|(a & -> & _)]].
    + split; [done|by left].
    + split; [done|]. right. by exists a.
  - destruct (while_true (S (List.length inputs)) elements recorded_actions
                inputs) as [outcome|] eqn:Hrun.
    + exists outcome. intros fuel Hfuel.
      eapply while_true_more; [exact Hrun|lia].
    + by apply while_true_fuel in Hrun; [|lia].
Qed.

(** ** The identifier of the emitted helper *)

(** X15. The identifier function of the emitted helper block never
    answers [unnamed_screen]: it gives the normalized candidate, and
    [unknown_screen] where the normalization gives [unnamed_screen]. Its
    answer is a source identifier in every case. The generator does name a
    function [unnamed_screen], for a screen without label on a device that
    tells no activity. *)
Theorem helper_identifier_never_unnamed potential_name :
  let identifier := helper_screen_identifier potential_name in
  identifier <> py "unnamed_screen"
  /\ valid_identifier identifier = true
  /\ (if str_eqb (normalize_to_snake_case potential_name)
         (py "unnamed_screen")
      then identifier = py "unknown_screen"
      else identifier = normalize_to_snake_case potential_name)
  /\ generate_screen_name silent_device [] = py "unnamed_screen".
Proof.
  cbv zeta. unfold helper_screen_identifier.
  assert (Hcandidate :
            Helper.normalize_to_snake_case
              (if truthy potential_name then potential_name
               else py "Unnamed Screen")
            = normalize_to_snake_case potential_name).
  { destruct potential_name; reflexivity. }
  rewrite Hcandidate.
  destruct (normalize_normal_form potential_name) as (Hne & Hsnake & Hdigit).
  generalize dependent (normalize_to_snake_case potential_name).
  intros name Hcandidate Hne Hsnake Hdigit. rewrite Hne. simpl.
  rewrite orb_false_r. unfold str_eqb. case_bool_decide as Hname.
  - split; [discriminate|]. split; [reflexivity|].
    split; reflexivity.
  - split; [done|]. split; [|split; reflexivity].
    unfold valid_identifier. rewrite Hne, Hdigit. unfold snake_case in Hsnake.
    by apply andb_prop in Hsnake as [[[-> _]%andb_prop _]%andb_prop _].
Qed.
